(** * agentic_ai: configuration factory, instruction dispatch and toy programs

    A shallow embedding of the Python sources

      - [day-2/src/setup.py]                  ([create_gemini_config])
      - [day-2/src/dynamic_instructions.py]   ([DynamicAgent])
      - [python/projects/password generator/password_generator.py]
      - [python/projects/rock_paper_scissor/main.py]
      - [python/projects/Number Guess Game/number_guess_user.py] and
        [number_guess_computer.py]
      - [openai-agents-sdk/day-1/calculator.py] and [setup.py]
        ([Calculator]; [divide] is also that of
        [openai-agents-sdk/day-2/async_calculator.py])

    Python functions become functions in a state-and-exception monad: the
    state is what the function can observe or change (the process
    environment and the console, or the random generator), an uncaught
    [raise] is the [Raise] outcome.  What a player types and what
    [random.randint] returns are arguments of the games.  The classes of the external agent SDK
    ([AsyncOpenAI], [ModelSettings], [RunConfig], [Agent], ...) are plain
    records holding the keyword arguments they were built from, and the
    remote call [Runner.run] is an arbitrary computation of the monad.
    Python integers are [Z]; the float that the division of two integers
    returns is a binary64 number of the standard library's [SpecFloat]. *)

From Stdlib Require Import ZArith QArith Qabs Qpower Lia Ascii.
From Stdlib Require Import Floats.SpecFloat.
From stdpp Require Import gmap strings list pretty.

(** ** Python run-time: exceptions, outcomes, the monad *)

(** The exceptions the modelled code can meet.  [Exception cls msg] stands
    for an instance of any other subclass of [Exception], as the remote
    model call may raise; [BaseException cls msg] for an instance of a
    class outside [Exception]: [asyncio.CancelledError],
    [KeyboardInterrupt], [SystemExit]. *)
Inductive exn : Type :=
  | ValueError (msg : string)
  | IndexError (msg : string)
  | Exception (cls msg : string)
  | BaseException (cls msg : string).

(** [str(e)], what an f-string prints for [{e}]. *)
Definition str_exn (e : exn) : string :=
  match e with
  | ValueError msg => msg
  | IndexError msg => msg
  | Exception _ msg => msg
  | BaseException _ msg => msg
  end.

(** [isinstance(e, Exception)] *)
Definition is_exception (e : exn) : bool :=
  match e with
  | BaseException _ _ => false
  | _ => true
  end.

Inductive result (A : Type) : Type :=
  | Ok (a : A)
  | Raise (e : exn).
Arguments Ok {A} a.
Arguments Raise {A} e.

(** A computation over a state [S]: it ends with a value or an exception and
    a final state (effects done before a [raise] stay done). *)
Definition M (S A : Type) : Type := S -> result A * S.

Global Instance M_ret {S} : MRet (M S) := fun A a s => (Ok a, s).

Global Instance M_bind {S} : MBind (M S) :=
  fun A B k m s =>
    match m s with
    | (Ok a, s') => k a s'
    | (Raise e, s') => (Raise e, s')
    end.

(** [raise e] *)
Global Instance M_throw {S} : MThrow exn (M S) := fun A e s => (Raise e, s).

(** [try: m  except Exception as e: h e].  The handler takes the
    instances of [Exception]; any other exception goes on to the caller. *)
Definition try_except {S A} (m : M S A) (h : exn -> M S A) : M S A :=
  fun s =>
    match m s with
    | (Ok a, s') => (Ok a, s')
    | (Raise e, s') => if is_exception e then h e s' else (Raise e, s')
    end.

(** An outcome computed without touching the state. *)
Definition lift_result {S A} (r : result A) : M S A := fun s => (r, s).

(** The part of the process a function of these scripts can touch:
    [os.environ] (after [load_dotenv()]) and the lines written by [print]. *)
Record World : Type := mkWorld {
  environ : gmap string string;
  console : list string
}.

(** [os.getenv(name)]: the value, or [None]. *)
Definition getenv (name : string) : M World (option string) :=
  fun w => (Ok (environ w !! name), w).

(** [print(line)] *)
Definition print (line : string) : M World unit :=
  fun w => (Ok tt, mkWorld (environ w) (console w ++ [line])).

(** Truth value of an optional string: [None] and [''] are false. *)
Definition truthy (v : option string) : bool :=
  match v with
  | None => false
  | Some EmptyString => false
  | Some (String _ _) => true
  end.

(** [l[i]] on a list, with Python's negative indices. *)
Definition getitem {A} (l : list A) (i : Z) : result A :=
  let n := Z.of_nat (length l) in
  let j := if (i <? 0)%Z then (i + n)%Z else i in
  if (j <? 0)%Z || (n <=? j)%Z then Raise (IndexError "list index out of range")
  else match l !! Z.to_nat j with
       | Some a => Ok a
       | None => Raise (IndexError "list index out of range")
       end.

(** ASCII character classes and case mapping. *)
Definition is_upper (c : ascii) : bool :=
  let n := nat_of_ascii c in (65 <=? n) && (n <=? 90).

Definition is_lower (c : ascii) : bool :=
  let n := nat_of_ascii c in (97 <=? n) && (n <=? 122).

Definition is_digit (c : ascii) : bool :=
  let n := nat_of_ascii c in (48 <=? n) && (n <=? 57).

Definition is_alpha (c : ascii) : bool := is_upper c || is_lower c.

Definition to_upper (c : ascii) : ascii :=
  if is_lower c then ascii_of_nat (nat_of_ascii c - 32) else c.

Definition to_lower (c : ascii) : ascii :=
  if is_upper c then ascii_of_nat (nat_of_ascii c + 32) else c.

(** The generator behind [random]: an endless tape of draws, consumed from
    the front.  Every tape is a possible run. *)
Definition rng : Type := nat -> nat.

(** A uniform draw from [0, n): [randbelow(n)], [floor(random() * n)]. *)
Definition random_below (n : nat) : M rng nat :=
  fun g => (Ok (g 0 `mod` n), fun i => g (S i)).

(** [random.randint(low, high)]: [low + randbelow(high - low + 1)], a
    [ValueError] on an empty range (with the text of Python 3.12). *)
Definition randint (low high : Z) : M rng Z :=
  if (high <? low)%Z then
    mthrow (ValueError ("empty range in randrange(" +:+ pretty low +:+ ", "
                          +:+ pretty (high + 1)%Z +:+ ")"))
  else
    n ← random_below (Z.to_nat (high - low + 1));
    mret (low + Z.of_nat n)%Z.

(** [for x in xs: body x] *)
Fixpoint for_each {S A} (xs : list A) (body : A -> M S unit) : M S unit :=
  match xs with
  | [] => mret tt
  | x :: rest => body x;; for_each rest body
  end.

(** [enumerate(xs, start)] *)
Fixpoint enumerate {A} (start : Z) (xs : list A) : list (Z * A) :=
  match xs with
  | [] => []
  | x :: rest => (start, x) :: enumerate (start + 1) rest
  end.

(** [s * n] on a string. *)
Fixpoint repeat_string (s : string) (n : nat) : string :=
  match n with
  | 0 => ""
  | S n' => s +:+ repeat_string s n'
  end.

(** The line break of a ["\n"] escape. *)
Definition nl : string := String "010"%char EmptyString.

(** [str(v)] for a value that is a string or [None]. *)
Definition str_option (v : option string) : string :=
  match v with
  | Some s => s
  | None => "None"
  end.

(** [str.capitalize()] on ASCII text: the first character upper-cased, the
    others lower-cased. *)
Fixpoint lower (s : string) : string :=
  match s with
  | EmptyString => EmptyString
  | String c rest => String (to_lower c) (lower rest)
  end.

Definition capitalize (s : string) : string :=
  match s with
  | EmptyString => EmptyString
  | String c rest => String (to_upper c) (lower rest)
  end.

(** ** day-2/src/setup.py *)

Module setup.

(** The objects of the SDK that the factory builds, each holding the keyword
    arguments of its constructor call.  [api_key] is the value of
    [os.getenv] as it was read; a sampling temperature is a rational (every
    float literal is one), a token limit an integer: the constructors store
    both without looking at them. *)
Record AsyncOpenAI : Type := mkAsyncOpenAI {
  api_key : option string;
  base_url : string
}.

Record OpenAIChatCompletionsModel : Type := mkOpenAIChatCompletionsModel {
  model : string;
  openai_client : AsyncOpenAI
}.

Record ModelSettings : Type := mkModelSettings {
  temperature : Q;
  max_tokens : Z
}.

(** [run_model] is the keyword argument [model=] of [RunConfig]. *)
Record RunConfig : Type := mkRunConfig {
  run_model : OpenAIChatCompletionsModel;
  model_provider : AsyncOpenAI;
  tracing_disabled : bool;
  model_settings : ModelSettings
}.

Definition create_gemini_config (temperature : Q) (max_tokens : Z)
  : M World (RunConfig * AsyncOpenAI * OpenAIChatCompletionsModel) :=
  gemini_api_key ← getenv "GEMINI_API_KEY";
  if negb (truthy gemini_api_key) then
    mthrow (ValueError "GEMINI_API_KEY not found in environment variables")
  else
    let external_client :=
      mkAsyncOpenAI gemini_api_key
        "https://generativelanguage.googleapis.com/v1beta/openai/" in
    let model := mkOpenAIChatCompletionsModel "gemini-2.0-flash" external_client in
    let model_settings := mkModelSettings temperature max_tokens in
    let config := mkRunConfig model external_client true model_settings in
    mret (config, external_client, model).

(** The defaults of the signature: [temperature=0.7, max_tokens=1000]. *)
Definition default_temperature : Q := 7 # 10.
Definition default_max_tokens : Z := 1000.

(** A configuration triple as [create_gemini_config] returns it. *)
Definition config_triple : Type :=
  (RunConfig * AsyncOpenAI * OpenAIChatCompletionsModel)%type.

(** The dict literal of [create_different_model_configs], as the list of its
    items in insertion order; the four calls are made in that order. *)
Definition create_different_model_configs : M World (list (string * config_triple)) :=
  creative ← create_gemini_config (9 # 10) 1500;
  analytical ← create_gemini_config (2 # 10) 800;
  balanced ← create_gemini_config (7 # 10) 1000;
  concise ← create_gemini_config (5 # 10) 200;
  mret [("creative", creative); ("analytical", analytical);
        ("balanced", balanced); ("concise", concise)].

(** The block under [if __name__ == "__main__":]. *)
Definition main_block : M World unit :=
  try_except
    (_ ← create_gemini_config default_temperature default_max_tokens;
     print "✅ Basic setup successful!";;
     configs ← create_different_model_configs;
     print ("✅ Created " +:+ pretty (length configs) +:+ " different configurations!");;
     for_each configs (fun item =>
       print ("  - " +:+ capitalize item.1 +:+ " config ready")))
    (fun e => print ("❌ Setup failed: " +:+ str_exn e)).

End setup.

(** ** day-2/src/dynamic_instructions.py *)

Module dynamic_instructions.

(** The SDK's [Agent], built from three keyword arguments. *)
Record Agent : Type := mkAgent {
  name : string;
  instructions : string;
  model : string
}.

(** What [Runner.run] resolves to; only [final_output] is read. *)
Record RunResult : Type := mkRunResult {
  final_output : string
}.

(** [str.title()] on ASCII text: a cased character is upper-cased when the
    one before it is not cased and lower-cased when it is.  The method is
    only ever applied to a key of the template table. *)
Fixpoint title_from (previous_is_cased : bool) (s : string) : string :=
  match s with
  | EmptyString => EmptyString
  | String c rest =>
      if is_lower c then
        String (if previous_is_cased then c else to_upper c) (title_from true rest)
      else if is_upper c then
        String (if previous_is_cased then to_lower c else c) (title_from true rest)
      else String c (title_from false rest)
  end.

Definition title (s : string) : string := title_from false s.

(** The literal text of each f-string of [instruction_templates], up to its
    single placeholder [{additional_context}] (line breaks and indentation
    as in the source). *)
Definition email_template : string :=
  "You are a professional email assistant.
            Write clear, polite, and business-appropriate emails.
            Keep responses concise and actionable.
            ".

Definition code_template : string :=
  "You are a senior software engineer.
            Provide clean, well-commented code with explanations.
            Focus on best practices and readability.
            ".

Definition creative_template : string :=
  "You are a creative writing assistant.
            Be imaginative, engaging, and descriptive.
            Use vivid language and compelling narratives.
            ".

Definition tutor_template : string :=
  "You are a patient and encouraging tutor.
            Explain concepts step-by-step with examples.
            Ask clarifying questions to ensure understanding.
            ".

Definition analyst_template : string :=
  "You are a data analyst.
            Provide structured, logical analysis.
            Use facts and evidence to support conclusions.
            ".

(** The dict literal: later entries would replace earlier ones. *)
Definition instruction_templates (additional_context : string) : gmap string string :=
  <["analyst" := analyst_template +:+ additional_context]>
  (<["tutor" := tutor_template +:+ additional_context]>
  (<["creative" := creative_template +:+ additional_context]>
  (<["code" := code_template +:+ additional_context]>
  (<["email" := email_template +:+ additional_context]> ∅)))).

Record DynamicAgent : Type := mkDynamicAgent {
  base_name : string;
  config : setup.RunConfig
}.

(** [DynamicAgent(base_name)] *)
Definition __init__ (base_name : string) : M World DynamicAgent :=
  r ← setup.create_gemini_config setup.default_temperature setup.default_max_tokens;
  let '(config, _, _) := r in
  mret (mkDynamicAgent base_name config).

Definition create_agent_for_task (self : DynamicAgent)
    (task_type additional_context : string) : M World Agent :=
  let instruction_templates := instruction_templates additional_context in
  match instruction_templates !! task_type with
  | None => mthrow (ValueError ("Unknown task type: " +:+ task_type))
  | Some template =>
      mret (mkAgent (base_name self +:+ " - " +:+ title task_type)
                    template
                    "gemini-2.0-flash")
  end.

Section handle_request.

(** [Runner.run(agent, user_input, run_config=...)], awaited: the remote
    call, which may return, raise, print or change the environment. *)
Variable Runner_run : Agent -> string -> setup.RunConfig -> M World RunResult.

(** The value is [Some final_output], or [None] for Python's [None] when
    the handler falls off its end. *)
Definition handle_request (self : DynamicAgent)
    (task_type user_input context : string) : M World (option string) :=
  try_except
    (agent ← create_agent_for_task self task_type context;
     result ← Runner_run agent user_input (config self);
     mret (Some (final_output result)))
    (fun e =>
       print ("you type wrong task_type " +:+ str_exn e);;
       mret None).

End handle_request.

(** An entry of [test_cases]: a dict with the keys [task], [input] and
    [context]. *)
Record test_case : Type := mkTestCase {
  task : string;
  input : string;
  context : string
}.

Definition test_cases : list test_case :=
  [ mkTestCase "email"
      "Write a follow-up email to a client about a delayed project"
      "The delay is due to unexpected technical challenges.";
    mkTestCase "code"
      "Write a Python function to calculate fibonacci numbers"
      "Make it efficient and handle edge cases.";
    mkTestCase "creative"
      "Describe a futuristic city"
      "Focus on environmental sustainability.";
    mkTestCase "tutor"
      "Explain what loops are in programming"
      "Explain to a beginner with no programming experience." ].

Definition interview_context : string :=
  "The student is a college CS major preparing for a job interview at a tech company. 
        Focus on practical applications and common interview topics.".

Section demos.

Variable Runner_run : Agent -> string -> setup.RunConfig -> M World RunResult.

Definition demo_dynamic_agents : M World unit :=
  print ("🔄 Dynamic Agent Demo" +:+ nl);;
  dynamic_system ← __init__ "Versatile Assistant";
  for_each (enumerate 1 test_cases) (fun it =>
    let i := it.1 in
    let test_case := it.2 in
    print ("🎯 Test " +:+ pretty i +:+ ": " +:+ title (task test_case) +:+ " Task");;
    print ("Input: " +:+ input test_case);;
    print ("Context: " +:+ context test_case);;
    print (repeat_string "-" 50);;
    response ← handle_request Runner_run dynamic_system
                 (task test_case) (input test_case) (context test_case);
    print ("Response: " +:+ str_option response);;
    print (nl +:+ repeat_string "=" 60 +:+ nl)).

Definition demo_context_evolution : M World unit :=
  print ("🌱 Context Evolution Demo" +:+ nl);;
  dynamic_system ← __init__ "Learning Assistant";
  print "1️⃣ Basic explanation:";;
  response1 ← handle_request Runner_run dynamic_system
                "tutor" "What is machine learning?" "";
  print ("Response: " +:+ str_option response1 +:+ nl);;
  print "2️⃣ With student level context:";;
  response2 ← handle_request Runner_run dynamic_system
                "tutor" "What is machine learning?"
                "The student is a college computer science major with programming experience.";
  print ("Response: " +:+ str_option response2 +:+ nl);;
  print "3️⃣ With specific learning goals:";;
  response3 ← handle_request Runner_run dynamic_system
                "tutor" "What is machine learning?" interview_context;
  print ("Response: " +:+ str_option response3 +:+ nl).

End demos.

End dynamic_instructions.

(** ** python/projects/password generator/password_generator.py *)

Module password_generator.

(** [random.choices(population, k=k)]: [k] independent draws, first draw
    first.  The count is the number of rounds of [itertools.repeat(None, k)]:
    a negative [k] that fits a machine word ([-2^63 <= k]) makes no round,
    arrives here as [0] and gives the empty list.  A count outside the
    machine-word range ([k < -2^63] or [2^63 <= k]) raises [OverflowError]
    in CPython before any draw; that, and the exhaustion of memory by a
    very long list, are outside this model. *)
Fixpoint choices {A} (population : list A) (k : nat) : M rng (list A) :=
  match k with
  | 0 => mret []
  | S k' =>
      i ← random_below (length population);
      x ← lift_result (getitem population (Z.of_nat i));
      rest ← choices population k';
      mret (x :: rest)
  end.

(** [x[i], x[j] = x[j], x[i]] *)
Definition swap {A} (x : list A) (i j : nat) : result (list A) :=
  match x !! j, x !! i with
  | Some xj, Some xi => Ok (<[j := xi]> (<[i := xj]> x))
  | _, _ => Raise (IndexError "list index out of range")
  end.

(** The loop of [random.shuffle]:
    [for i in reversed(range(1, len(x))): j = randbelow(i + 1); swap],
    entered at index [i]. *)
Fixpoint shuffle_from {A} (i : nat) (x : list A) : M rng (list A) :=
  match i with
  | 0 => mret x
  | S i' =>
      j ← random_below (i + 1);
      x' ← lift_result (swap x i j);
      shuffle_from i' x'
  end.

Definition shuffle {A} (x : list A) : M rng (list A) :=
  shuffle_from (length x - 1) x.

Definition alphabet : string := "abcdefghijklmnopqrstuvwxyzABCDEFGHIJKLMNOPQRSTUVWXYZ".
Definition digits : string := "0123456789".
Definition special_chars : string := "!@#$%^&*()_+-=[]{}|;:,.<>?/".

Definition generate_password (letters numbers symbols : Z) : M rng string :=
  a ← choices (String.list_ascii_of_string alphabet) (Z.to_nat letters);
  b ← choices (String.list_ascii_of_string digits) (Z.to_nat numbers);
  c ← choices (String.list_ascii_of_string special_chars) (Z.to_nat symbols);
  let password_chars := a ++ b ++ c in
  password_chars ← shuffle password_chars;
  mret (String.string_of_list_ascii password_chars).

(** Membership in [special_chars]. *)
Definition is_special (c : ascii) : bool :=
  bool_decide (c ∈ String.list_ascii_of_string special_chars).

(** How many characters of [s] satisfy [p]. *)
Definition count_chars (p : ascii -> bool) (s : string) : nat :=
  length (filter (fun c => p c = true) (String.list_ascii_of_string s)).

End password_generator.

(** ** python/projects/rock_paper_scissor/main.py *)

Module rock_paper_scissor.

Definition rock : string :=
  "
    _______
---'   ____)
      (_____)
      (_____)
      (____)
---.__(___)
".

Definition paper : string :=
  "
    _______
---'   ____)____
          ______)
          _______)
         _______)
---.__________)
".

Definition scissors : string :=
  "
    _______
---'   ____)____
          ______)
       __________)
      (____)
---.__(___)
".

Definition game_list : list string := [rock; paper; scissors].

Definition prompt : string :=
  String.append "What do you choose? Type 0 for Rock, 1 for Paper or 2 for Scissors. "
                (String "010"%char EmptyString).

(** The condition under which the player's choice is displayed. *)
Definition choice_guard (your_choice : Z) : bool :=
  ((your_choice <=? 3) && (your_choice >? 0))%Z.

(** The script, for the number [your_choice] typed at the prompt and the
    value [ai] returned by [random.randint(0,2)]. *)
Definition main (your_choice ai : Z) : M World unit :=
  print prompt;;
  (if choice_guard your_choice then
     art ← lift_result (getitem game_list your_choice);
     print art
   else mret tt);;
  print "computer choose:";;
  art ← lift_result (getitem game_list ai);
  print art;;
  if ((your_choice >=? 3) || (your_choice <? 0))%Z then
    print "you typed an invalid number"
  else if (ai =? your_choice)%Z then
    print "It's a draw!"
  else if (ai >? your_choice)%Z then
    print "You win"
  else if (ai <? your_choice)%Z then
    print "You lose"
  else if ((ai =? 0) && (your_choice =? 2))%Z then
    print "You lose"
  else if ((ai =? 2) && (your_choice =? 0))%Z then
    print "You win"
  else mret tt.

End rock_paper_scissor.

(** ** openai-agents-sdk/day-1/calculator.py *)

Module calculator.

Record Calculator : Type := mkCalculator {
  name : string
}.

(** Python integers are unbounded: the operators are those of [Z]. *)
Definition addition (self : Calculator) (a b : Z) : Z := (a + b)%Z.

Definition subtract (self : Calculator) (a b : Z) : Z := (a - b)%Z.

Definition multiply (self : Calculator) (a b : Z) : Z := (a * b)%Z.

(** The slice [text[::-1]]: the characters at the indices [i - 1], ..., [0],
    in that order, for [i = len(text)].  A text is the list of its
    characters. *)
Fixpoint slice_down {A} (text : list A) (i : nat) : list A :=
  match i with
  | 0 => []
  | S i' =>
      match text !! i' with
      | Some c => c :: slice_down text i'
      | None => slice_down text i'
      end
  end.

Definition reverse_string {A} (self : Calculator) (text : list A) : list A :=
  slice_down text (length text).






End calculator.

(** ** openai-agents-sdk/day-1/setup.py *)

Module sdk_setup.

(** [RunConfig] as this file builds it, without model settings. *)
Record RunConfig : Type := mkRunConfig {
  run_model : setup.OpenAIChatCompletionsModel;
  model_provider : setup.AsyncOpenAI;
  tracing_disabled : bool
}.

Definition create_gemini_setup
  : M World (RunConfig * setup.OpenAIChatCompletionsModel * setup.AsyncOpenAI) :=
  gemini_api ← getenv "GEMINI_API_KEY";
  if negb (truthy gemini_api) then
    mthrow (ValueError "GEMINI_API_KEY not found in environment variables")
  else
    let external_client :=
      setup.mkAsyncOpenAI gemini_api
        "https://generativelanguage.googleapis.com/v1beta/openai/" in
    let model := setup.mkOpenAIChatCompletionsModel "gemini-2.0-flash" external_client in
    let config := mkRunConfig model external_client true in
    mret (config, model, external_client).

(** The statements at the end of the module, run with the module's
    [__name__]: ["__main__"] for a script, the module name on import. *)
Definition module_body (__name__ : string) : M World unit :=
  if decide (__name__ = "__main__") then
    print "setup check is Running";;
    _ ← create_gemini_setup;
    print "The Setup is Successful"
  else
    print "Setup Failed".

End sdk_setup.

(** ** python/projects/Number Guess Game/number_guess_user.py *)

Module number_guess_user.

(** The [while True] loop, by recursion on the numbers still to be typed at
    the prompt: each turn reads one, and [input] raises [EOFError] when
    there is none left. *)
Fixpoint guessing (secret_number attempts : Z) (typed : list Z) : M World unit :=
  match typed with
  | [] =>
      print "Enter your guess: ";;
      mthrow (Exception "EOFError" "EOF when reading a line")
  | guess :: typed' =>
      print "Enter your guess: ";;
      let attempts := (attempts + 1)%Z in
      if (guess =? secret_number)%Z then
        print ("Congratulations! You guessed the number " +:+ pretty secret_number
                 +:+ " in " +:+ pretty attempts +:+ " attempts.")
      else if (guess >? secret_number)%Z then
        print "Too high! Try again.";;
        guessing secret_number attempts typed'
      else
        print "Too low! Try again.";;
        guessing secret_number attempts typed'
  end.

(** The game, for the numbers [typed] by the player and the generator [g]. *)
Definition user_guess (typed : list Z) (g : rng) : M World unit :=
  let low := 1%Z in
  let high := 100%Z in
  let attempts := 0%Z in
  secret_number ← lift_result (randint low high g).1;
  print "I have chosen a number between 1 and 100. Try to guess it!";;
  guessing secret_number attempts typed.

End number_guess_user.

(** ** python/projects/Number Guess Game/number_guess_computer.py *)

Module number_guess_computer.

(** The [while True] loop, by recursion on the lines still to be typed at
    the question: a turn that misses reads one, and [input] raises
    [EOFError] when there is none left.  [g] is the generator at the start
    of the turn. *)
Fixpoint guessing (secret_number low high attempts : Z)
    (typed : list string) (g : rng) : M World unit :=
  match randint low high g with
  | (Raise e, _) => mthrow e
  | (Ok guess, g') =>
      let attempts := (attempts + 1)%Z in
      print ("I guess " +:+ pretty guess);;
      if (guess =? secret_number)%Z then
        print ("Yay! I guessed it right: " +:+ pretty guess +:+ " in "
                 +:+ pretty attempts +:+ " attempts.")
      else
        match typed with
        | [] =>
            print "Is the number high or low?";;
            mthrow (Exception "EOFError" "EOF when reading a line")
        | line :: typed' =>
            print "Is the number high or low?";;
            let user := lower line in
            if decide (user = "high") then
              print "High! I'll guess lower.";;
              guessing secret_number low (guess - 1) attempts typed' g'
            else if decide (user = "low") then
              print "low! I'll guess higher.";;
              guessing secret_number (guess + 1) high attempts typed' g'
            else
              guessing secret_number low high attempts typed' g'
        end
  end.

(** The game, for the number [secret_number] typed at the first prompt, the
    lines [typed] at the questions and the generator [g]. *)
Definition computer_guess (secret_number : Z) (typed : list string) (g : rng)
  : M World unit :=
  let low := 1%Z in
  let high := 100%Z in
  let attempts := 0%Z in
  print "Choose a number between 1 and 100 for me to guess: ";;
  print "Great! Now I'll try to guess it.";;
  guessing secret_number low high attempts typed g.

End number_guess_computer.

(** ** Concrete inputs *)

(** A process whose environment holds a credential, with an empty console. *)
Definition world_with_key : World :=
  mkWorld {["GEMINI_API_KEY" := "secret"]} [].

(** A process with no credential at all. *)
Definition world_without_key : World := mkWorld ∅ [].

Definition example_client : setup.AsyncOpenAI :=
  setup.mkAsyncOpenAI (Some "secret")
    "https://generativelanguage.googleapis.com/v1beta/openai/".

Definition example_model : setup.OpenAIChatCompletionsModel :=
  setup.mkOpenAIChatCompletionsModel "gemini-2.0-flash" example_client.

Definition example_config (temperature : Q) (max_tokens : Z) : setup.RunConfig :=
  setup.mkRunConfig example_model example_client true
    (setup.mkModelSettings temperature max_tokens).

(** The object [DynamicAgent("Versatile Assistant")] of the demo. *)
Definition versatile_assistant : dynamic_instructions.DynamicAgent :=
  dynamic_instructions.mkDynamicAgent "Versatile Assistant"
    (example_config setup.default_temperature setup.default_max_tokens).

(** A remote call that fails, as on a dropped connection. *)
Definition connection_error : exn := Exception "APIConnectionError" "Connection error.".

Definition failing_run (agent : dynamic_instructions.Agent) (user_input : string)
    (run_config : setup.RunConfig) : M World dynamic_instructions.RunResult :=
  mthrow connection_error.

(** A remote call that is cancelled while it is awaited. *)
Definition cancelled : exn := BaseException "CancelledError" "".

Definition cancelled_run (agent : dynamic_instructions.Agent) (user_input : string)
    (run_config : setup.RunConfig) : M World dynamic_instructions.RunResult :=
  mthrow cancelled.

(** A remote call that answers with the instructions it was given. *)
Definition echo_run (agent : dynamic_instructions.Agent) (user_input : string)
    (run_config : setup.RunConfig) : M World dynamic_instructions.RunResult :=
  mret (dynamic_instructions.mkRunResult (dynamic_instructions.instructions agent)).

(** What the game writes for a wrong guess: the prompt and the hint. *)
Definition hint_lines (secret_number guess : Z) : list string :=
  ["Enter your guess: ";
   if (guess >? secret_number)%Z then "Too high! Try again." else "Too low! Try again."].

(** The lines of a player who answers every guess of the computer
    truthfully, "high" when the guess is above the secret number and "low"
    when it is below, for at most [n] guesses. *)
Fixpoint honest_answers (secret_number low high : Z) (n : nat) (g : rng)
  : list string :=
  match n with
  | 0 => []
  | S n' =>
      match randint low high g with
      | (Raise _, _) => []
      | (Ok guess, g') =>
          if (guess =? secret_number)%Z then []
          else if (guess >? secret_number)%Z then
            "high" :: honest_answers secret_number low (guess - 1) n' g'
          else
            "low" :: honest_answers secret_number (guess + 1) high n' g'
      end
  end.

(** [sub] occurs in [s]. *)
Definition contains (s sub : string) : Prop :=
  exists before after, s = before +:+ sub +:+ after.

(** The projection of an outcome on the instruction text of its agent. *)
Definition instructions_of (r : result dynamic_instructions.Agent) : result string :=
  match r with
  | Ok agent => Ok (dynamic_instructions.instructions agent)
  | Raise e => Raise e
  end.


(** * Properties *)

Import setup dynamic_instructions.

(** ** Strings *)

Lemma append_empty_r (s : string) : s +:+ "" = s.
Proof.
  induction s as [|c s IH]; [reflexivity|].
  change (String c (s +:+ "") = String c s). now rewrite IH.
Qed.

Lemma contains_prefix (s t : string) : contains (s +:+ t) s.
Proof. exists "", t. reflexivity. Qed.

Lemma contains_suffix (s t : string) : contains (s +:+ t) t.
Proof. exists s, "". now rewrite append_empty_r. Qed.

(** ** The configuration factory *)

Lemma create_gemini_config_with_key (temperature : Q) (max_tokens : Z) (w : World) :
  truthy (environ w !! "GEMINI_API_KEY") = true ->
  exists config client model,
    create_gemini_config temperature max_tokens w = (Ok (config, client, model), w)
    /\ setup.temperature (model_settings config) = temperature
    /\ setup.max_tokens (model_settings config) = max_tokens.
Proof.
  intros Hkey. unfold create_gemini_config, getenv, mbind, M_bind.
  rewrite Hkey. simpl. eauto 10.
Qed.

(** C1.  The factory does not look at its sampling parameters: with a
    credential in the environment it returns a configuration carrying a
    temperature of 1.5, a temperature of -0.5, a token limit of 0 and a
    token limit of -5, each unchanged, where the specification (and the
    repository's own parameter check in [debug.py]) expects a failure. *)
Theorem create_gemini_config_accepts_invalid_parameters :
  create_gemini_config (3 # 2) 1000 world_with_key
    = (Ok (example_config (3 # 2) 1000, example_client, example_model), world_with_key)
  /\ create_gemini_config (-1 # 2) 1000 world_with_key
    = (Ok (example_config (-1 # 2) 1000, example_client, example_model), world_with_key)
  /\ create_gemini_config (7 # 10) 0 world_with_key
    = (Ok (example_config (7 # 10) 0, example_client, example_model), world_with_key)
  /\ create_gemini_config (7 # 10) (-5) world_with_key
    = (Ok (example_config (7 # 10) (-5), example_client, example_model), world_with_key).
Proof. repeat split; reflexivity. Qed.

(** C2.  Whatever the temperature and the token limit, when GEMINI_API_KEY
    is absent from the environment or is the empty string the factory
    raises its missing-credential error, a [ValueError], and leaves the
    process as it was. *)
Theorem create_gemini_config_missing_credential
    (temperature : Q) (max_tokens : Z) (w : World) :
  environ w !! "GEMINI_API_KEY" = None \/ environ w !! "GEMINI_API_KEY" = Some "" ->
  create_gemini_config temperature max_tokens w
    = (Raise (ValueError "GEMINI_API_KEY not found in environment variables"), w).
Proof.
  intros Hkey. unfold create_gemini_config, getenv, mbind, M_bind.
  destruct Hkey as [-> | ->]; reflexivity.
Qed.

Lemma create_gemini_config_missing_credential_witness :
  (environ world_without_key !! "GEMINI_API_KEY" = None
   \/ environ world_without_key !! "GEMINI_API_KEY" = Some "")
  /\ create_gemini_config (9 # 10) 1500 world_without_key
     = (Raise (ValueError "GEMINI_API_KEY not found in environment variables"),
        world_without_key).
Proof.
  split.
  - left. reflexivity.
  - apply create_gemini_config_missing_credential. left. reflexivity.
Defined.

(** ** The instruction dispatcher *)

(** The five keys of the template table and the fixed text of each. *)
Lemma instruction_templates_lookup (context task_type : string) :
  instruction_templates context !! task_type =
    if decide (task_type = "analyst") then Some (analyst_template +:+ context)
    else if decide (task_type = "tutor") then Some (tutor_template +:+ context)
    else if decide (task_type = "creative") then Some (creative_template +:+ context)
    else if decide (task_type = "code") then Some (code_template +:+ context)
    else if decide (task_type = "email") then Some (email_template +:+ context)
    else None.
Proof.
  unfold instruction_templates.
  repeat (rewrite lookup_insert; case_decide;
          [subst; repeat (case_decide; try congruence); fail
          | case_decide; [congruence|]]).
  apply lookup_empty.
Qed.

(** C3.  For each of the five task types and every context, the agent is
    built, nothing else happens, and its instructions are the fixed text of
    that task type followed by the context as given; so they contain both
    the fixed preamble and the context. *)
Theorem create_agent_for_task_appends_context
    (self : DynamicAgent) (task_type template context : string) (w : World) :
  (task_type, template) ∈
    [("email", email_template); ("code", code_template);
     ("creative", creative_template); ("tutor", tutor_template);
     ("analyst", analyst_template)] ->
  create_agent_for_task self task_type context w
    = (Ok (mkAgent (base_name self +:+ " - " +:+ title task_type)
                   (template +:+ context) "gemini-2.0-flash"), w)
  /\ contains (template +:+ context) template
  /\ contains (template +:+ context) context.
Proof.
  intros Hin. split; [|split; [apply contains_prefix | apply contains_suffix]].
  unfold create_agent_for_task. rewrite instruction_templates_lookup.
  repeat (apply elem_of_cons in Hin as [Hin | Hin];
          [injection Hin as -> ->; reflexivity|]).
  now apply elem_of_nil in Hin.
Qed.

Lemma create_agent_for_task_appends_context_witness :
  (("creative", creative_template) ∈
    [("email", email_template); ("code", code_template);
     ("creative", creative_template); ("tutor", tutor_template);
     ("analyst", analyst_template)])
  /\ create_agent_for_task versatile_assistant "creative" "focus on sustainability"
       world_with_key
     = (Ok (mkAgent "Versatile Assistant - Creative"
                    (creative_template +:+ "focus on sustainability")
                    "gemini-2.0-flash"), world_with_key)
  /\ contains (creative_template +:+ "focus on sustainability") creative_template
  /\ contains (creative_template +:+ "focus on sustainability") "focus on sustainability".
Proof.
  assert (Hin : ("creative", creative_template) ∈
    [("email", email_template); ("code", code_template);
     ("creative", creative_template); ("tutor", tutor_template);
     ("analyst", analyst_template)]).
  { apply list_elem_of_lookup_2 with 2. reflexivity. }
  split; [exact Hin|].
  exact (create_agent_for_task_appends_context versatile_assistant "creative"
           creative_template "focus on sustainability" world_with_key Hin).
Defined.

(** C4.  A task type outside the five keys, with any context, makes
    [create_agent_for_task] raise its unknown-task-type error, a
    [ValueError] naming the task type. *)
Theorem create_agent_for_task_unknown
    (self : DynamicAgent) (task_type context : string) (w : World) :
  task_type ∉ ["email"; "code"; "creative"; "tutor"; "analyst"] ->
  create_agent_for_task self task_type context w
    = (Raise (ValueError ("Unknown task type: " +:+ task_type)), w).
Proof.
  intros Hnotin. unfold create_agent_for_task.
  rewrite instruction_templates_lookup.
  repeat (case_decide; [exfalso; apply Hnotin; subst; set_solver|]).
  reflexivity.
Qed.

Lemma create_agent_for_task_unknown_witness :
  ("unknown_type" ∉ ["email"; "code"; "creative"; "tutor"; "analyst"])
  /\ create_agent_for_task versatile_assistant "unknown_type" "" world_with_key
     = (Raise (ValueError "Unknown task type: unknown_type"), world_with_key).
Proof.
  assert (Hnotin : "unknown_type" ∉ ["email"; "code"; "creative"; "tutor"; "analyst"]).
  { intros Hin. repeat (apply elem_of_cons in Hin as [Hin | Hin]; [discriminate Hin|]).
    now apply elem_of_nil in Hin. }
  split; [exact Hnotin|].
  exact (create_agent_for_task_unknown versatile_assistant "unknown_type" ""
           world_with_key Hnotin).
Defined.

(** C7.  Resolving instructions is pure: the process (environment and
    console) is the same after the call as before it, and two calls with the
    same task type and context give the same instruction text or the same
    error, whatever the dispatcher object and the state of the process. *)
Theorem create_agent_for_task_pure
    (self1 self2 : DynamicAgent) (task_type context : string) (w1 w2 : World) :
  (create_agent_for_task self1 task_type context w1).2 = w1
  /\ (create_agent_for_task self2 task_type context w2).2 = w2
  /\ instructions_of (create_agent_for_task self1 task_type context w1).1
     = instructions_of (create_agent_for_task self2 task_type context w2).1.
Proof.
  unfold create_agent_for_task.
  destruct (instruction_templates context !! task_type) as [template|];
    repeat split; reflexivity.
Qed.

(** ** The request handler *)

(** [handle_request] lets no instance of [Exception] out: a run ends with
    a value, or with an exception outside [Exception]. *)
Lemma handle_request_returns
    (run : Agent -> string -> RunConfig -> M World RunResult)
    (self : DynamicAgent) (task_type user_input context : string) (w : World) :
  exists w',
    (exists v, handle_request run self task_type user_input context w = (Ok v, w'))
    \/ (exists e, is_exception e = false
          /\ handle_request run self task_type user_input context w = (Raise e, w')).
Proof.
  unfold handle_request, try_except, mbind, M_bind.
  destruct (create_agent_for_task self task_type context w) as [[agent|e] w0].
  - destruct (run agent user_input (config self) w0) as [[r|e] w1]; simpl; [eauto|].
    destruct (is_exception e) eqn:He; simpl; eauto 6.
  - destruct (is_exception e) eqn:He; simpl; eauto 6.
Qed.

(** A cancellation while the remote call is awaited is outside
    [Exception]: it passes through [handle_request], and ends the demo
    that made the request. *)
Lemma handle_request_passes_cancellation :
  handle_request cancelled_run versatile_assistant "email" "hello" "" world_with_key
    = (Raise cancelled, world_with_key)
  /\ (demo_dynamic_agents cancelled_run world_with_key).1 = Raise cancelled.
Proof. split; reflexivity. Qed.

(** When the remote call returns, its final output is the value. *)
Lemma handle_request_success
    (run : Agent -> string -> RunConfig -> M World RunResult)
    (self : DynamicAgent) (task_type user_input context : string)
    (w w0 w' : World) (agent : Agent) (r : RunResult) :
  create_agent_for_task self task_type context w = (Ok agent, w0) ->
  run agent user_input (config self) w0 = (Ok r, w') ->
  handle_request run self task_type user_input context w
    = (Ok (Some (final_output r)), w').
Proof.
  intros Hagent Hrun. unfold handle_request, try_except, mbind, M_bind.
  rewrite Hagent, Hrun. reflexivity.
Qed.

(** C5, as the specification has it, fails: a remote call that raises a
    connection error is not surfaced by [handle_request].  The call ends
    normally with [None], and what reaches the console is a line about a
    wrong task type. *)
Lemma handle_request_swallows_remote_failure :
  failing_run (mkAgent "Versatile Assistant - Email" (email_template +:+ "")
                 "gemini-2.0-flash")
      "hello" (config versatile_assistant) world_with_key
    = (Raise connection_error, world_with_key)
  /\ handle_request failing_run versatile_assistant "email" "hello" "" world_with_key
    = (Ok None,
       mkWorld (environ world_with_key)
               ["you type wrong task_type Connection error."])
  /\ (handle_request failing_run versatile_assistant "email" "hello" "" world_with_key).1
    <> Raise connection_error.
Proof. repeat split; try reflexivity. discriminate. Qed.

(** C5, amended.  Whenever resolving the task type or the remote call
    raises an exception [e] that is an instance of [Exception],
    [handle_request] catches it: the call returns [None] and exactly one
    line is added to the console, which ends with the text of [e].  An
    exception outside [Exception] (a cancellation, a keyboard interrupt, a
    system exit) is not caught: it reaches the caller as it was raised. *)
Theorem handle_request_catches_and_prints
    (run : Agent -> string -> RunConfig -> M World RunResult)
    (self : DynamicAgent) (task_type user_input context : string)
    (w w' : World) (e : exn) :
  create_agent_for_task self task_type context w = (Raise e, w')
  \/ (exists agent w0,
        create_agent_for_task self task_type context w = (Ok agent, w0)
        /\ run agent user_input (config self) w0 = (Raise e, w')) ->
  if is_exception e then
    exists label,
      handle_request run self task_type user_input context w
        = (Ok None, mkWorld (environ w') (console w' ++ [label +:+ str_exn e]))
  else
    handle_request run self task_type user_input context w = (Raise e, w').
Proof.
  intros Hraise.
  assert (Hrun : handle_request run self task_type user_input context w
            = if is_exception e then
                (Ok None,
                 mkWorld (environ w')
                   (console w' ++ ["you type wrong task_type " +:+ str_exn e]))
              else (Raise e, w')).
  { unfold handle_request, try_except, mbind, M_bind.
    destruct Hraise as [Hagent | (agent & w0 & Hagent & Hrun)].
    - rewrite Hagent. destruct (is_exception e); reflexivity.
    - rewrite Hagent, Hrun. destruct (is_exception e); reflexivity. }
  destruct (is_exception e); [exists "you type wrong task_type "|]; exact Hrun.
Qed.

Lemma handle_request_catches_and_prints_witness :
  (exists agent w0,
     create_agent_for_task versatile_assistant "email" "" world_with_key = (Ok agent, w0)
     /\ failing_run agent "hello" (config versatile_assistant) w0
        = (Raise connection_error, world_with_key))
  /\ exists label,
       handle_request failing_run versatile_assistant "email" "hello" "" world_with_key
       = (Ok None,
          mkWorld (environ world_with_key)
                  (console world_with_key ++ [label +:+ str_exn connection_error])).
Proof.
  assert (Hrun : exists agent w0,
     create_agent_for_task versatile_assistant "email" "" world_with_key = (Ok agent, w0)
     /\ failing_run agent "hello" (config versatile_assistant) w0
        = (Raise connection_error, world_with_key)).
  { eexists _, _. split; reflexivity. }
  split; [exact Hrun|].
  exact (handle_request_catches_and_prints failing_run versatile_assistant
           "email" "hello" "" world_with_key world_with_key connection_error
           (or_intror Hrun)).
Defined.

(** ** The password generator *)

Import password_generator.

Lemma getitem_lookup {A} (l : list A) (i : nat) (a : A) :
  l !! i = Some a -> getitem l (Z.of_nat i) = Ok a.
Proof.
  intros Hi. pose proof (lookup_lt_Some _ _ _ Hi) as Hlt.
  unfold getitem. cbv zeta.
  destruct (Z.of_nat i <? 0)%Z eqn:Hneg; [apply Z.ltb_lt in Hneg; lia|].
  destruct (Z.of_nat (length l) <=? Z.of_nat i)%Z eqn:Hge;
    [apply Z.leb_le in Hge; lia|].
  rewrite Hneg. simpl. now rewrite Nat2Z.id, Hi.
Qed.

(** [random.choices] on a non-empty population returns, for every tape,
    [k] members of the population. *)
Lemma choices_spec {A} (population : list A) (k : nat) (g : rng) :
  population <> [] ->
  exists l g', choices population k g = (Ok l, g')
    /\ length l = k /\ Forall (fun x => x ∈ population) l.
Proof.
  intros Hne. revert g. induction k as [|k IH]; intros g.
  - exists [], g. repeat split. constructor.
  - assert (Hlen : 0 < length population) by (destruct population; simpl; [done|lia]).
    assert (Hidx : g 0 `mod` length population < length population)
      by (apply Nat.mod_upper_bound; lia).
    destruct (lookup_lt_is_Some_2 _ _ Hidx) as [x Hx].
    destruct (IH (fun i => g (S i))) as (l & g' & Hrest & Hl & Hall).
    exists (x :: l), g'. simpl.
    unfold mbind, M_bind, random_below, lift_result.
    rewrite (getitem_lookup _ _ _ Hx), Hrest. repeat split.
    + simpl. now rewrite Hl.
    + constructor; [|exact Hall]. apply list_elem_of_lookup. eauto.
Qed.

(** Exchanging two positions of a list that has both rearranges it. *)
Lemma swap_Permutation {A} (x : list A) (i j : nat) :
  i < length x -> j < length x ->
  exists y, swap x i j = Ok y /\ y ≡ₚ x.
Proof.
  intros Hi Hj.
  destruct (lookup_lt_is_Some_2 _ _ Hi) as [xi Hxi].
  destruct (lookup_lt_is_Some_2 _ _ Hj) as [xj Hxj].
  unfold swap. rewrite Hxi, Hxj. eexists; split; [reflexivity|].
  apply Permutation_inj. split; [now rewrite !length_insert|].
  exists (fun k => if decide (k = i) then j else if decide (k = j) then i else k).
  split.
  - intros a b. repeat case_decide; congruence.
  - intros k. rewrite !list_lookup_insert, !length_insert.
    repeat case_decide;
      repeat match goal with
             | H : _ /\ _ |- _ => destruct H
             | H : ~ (_ /\ _) |- _ => apply not_and_l in H as [?|?]
             end; subst; try congruence; try lia.
Qed.

(** The shuffle loop ends for every tape and only rearranges its list. *)
Lemma shuffle_from_Permutation {A} (i : nat) (x : list A) (g : rng) :
  i < length x \/ i = 0 ->
  exists y g', shuffle_from i x g = (Ok y, g') /\ y ≡ₚ x.
Proof.
  revert x g. induction i as [|i IH]; intros x g Hi.
  - exists x, g. split; reflexivity.
  - destruct Hi as [Hi | Hi]; [|discriminate Hi].
    assert (Hj : g 0 `mod` (S i + 1) < length x).
    { pose proof (Nat.mod_upper_bound (g 0) (S i + 1)). lia. }
    destruct (swap_Permutation x (S i) _ Hi Hj) as (x' & Hswap & Hperm).
    destruct (IH x' (fun n => g (S n))) as (y & g' & Hrest & Hperm').
    { left. rewrite (Permutation_length Hperm). lia. }
    exists y, g'.
    change (shuffle_from (S i) x g) with
      ((j ← random_below (S i + 1);
        x' ← lift_result (swap x (S i) j);
        shuffle_from i x') g).
    unfold mbind, M_bind, random_below, lift_result.
    rewrite Hswap, Hrest. split; [reflexivity|]. now rewrite Hperm'.
Qed.

Lemma shuffle_Permutation {A} (x : list A) (g : rng) :
  exists y g', shuffle x g = (Ok y, g') /\ y ≡ₚ x.
Proof.
  unfold shuffle. apply shuffle_from_Permutation.
  destruct x; simpl; [now right | left; lia].
Qed.

Lemma length_string_of_list_ascii (l : list ascii) :
  String.length (String.string_of_list_ascii l) = length l.
Proof. induction l as [|c l IH]; simpl; [reflexivity | now rewrite IH]. Qed.

Lemma count_chars_string_of_list_ascii (p : ascii -> bool) (l : list ascii) :
  count_chars p (String.string_of_list_ascii l)
    = length (filter (fun c => p c = true) l).
Proof. unfold count_chars. now rewrite String.list_ascii_of_string_of_list_ascii. Qed.

Lemma length_filter_all (p : ascii -> bool) (l : list ascii) :
  Forall (fun c => p c = true) l ->
  length (filter (fun c => p c = true) l) = length l.
Proof.
  induction 1 as [|c l Hc _ IH]; [reflexivity|].
  rewrite filter_cons_True by exact Hc. simpl. now rewrite IH.
Qed.

Lemma length_filter_none (p : ascii -> bool) (l : list ascii) :
  Forall (fun c => p c = false) l ->
  length (filter (fun c => p c = true) l) = 0.
Proof.
  induction 1 as [|c l Hc _ IH]; [reflexivity|].
  rewrite filter_cons_False by congruence. exact IH.
Qed.

(** The three populations are letters, digits and special characters, and
    no character belongs to two of the classes. *)
Lemma alphabet_class :
  Forall (fun c => is_alpha c = true /\ is_digit c = false /\ is_special c = false)
         (String.list_ascii_of_string alphabet).
Proof. apply (bool_decide_unpack _). vm_compute. exact I. Qed.

Lemma digits_class :
  Forall (fun c => is_alpha c = false /\ is_digit c = true /\ is_special c = false)
         (String.list_ascii_of_string digits).
Proof. apply (bool_decide_unpack _). vm_compute. exact I. Qed.

Lemma special_chars_class :
  Forall (fun c => is_alpha c = false /\ is_digit c = false /\ is_special c = true)
         (String.list_ascii_of_string special_chars).
Proof. apply (bool_decide_unpack _). vm_compute. exact I. Qed.

Lemma Forall_members {A} (Q : A -> Prop) (population l : list A) :
  Forall Q population -> Forall (fun x => x ∈ population) l -> Forall Q l.
Proof.
  intros HQ Hl. rewrite Forall_forall in HQ.
  eapply Forall_impl; [exact Hl|]. intros x Hx. now apply HQ.
Qed.

(** How many characters of each class a rearrangement of [a ++ b ++ c] has,
    when [a] holds letters, [b] digits and [c] special characters. *)
Lemma composition_counts (a b c y : list ascii) :
  Forall (fun x => is_alpha x = true /\ is_digit x = false /\ is_special x = false) a ->
  Forall (fun x => is_alpha x = false /\ is_digit x = true /\ is_special x = false) b ->
  Forall (fun x => is_alpha x = false /\ is_digit x = false /\ is_special x = true) c ->
  y ≡ₚ a ++ b ++ c ->
  length y = length a + length b + length c
  /\ length (filter (fun x => is_alpha x = true) y) = length a
  /\ length (filter (fun x => is_digit x = true) y) = length b
  /\ length (filter (fun x => is_special x = true) y) = length c.
Proof.
  intros Ha Hb Hc Hperm.
  split; [rewrite (Permutation_length Hperm), !length_app; lia|].
  repeat split.
  - rewrite (Permutation_length (filter_Permutation _ _ _ Hperm)).
    rewrite !filter_app, !length_app.
    rewrite (length_filter_all is_alpha a), (length_filter_none is_alpha b),
      (length_filter_none is_alpha c); [lia|..];
      (eapply Forall_impl; [eassumption|]; simpl; tauto).
  - rewrite (Permutation_length (filter_Permutation _ _ _ Hperm)).
    rewrite !filter_app, !length_app.
    rewrite (length_filter_none is_digit a), (length_filter_all is_digit b),
      (length_filter_none is_digit c); [lia|..];
      (eapply Forall_impl; [eassumption|]; simpl; tauto).
  - rewrite (Permutation_length (filter_Permutation _ _ _ Hperm)).
    rewrite !filter_app, !length_app.
    rewrite (length_filter_none is_special a), (length_filter_none is_special b),
      (length_filter_all is_special c); [lia|..];
      (eapply Forall_impl; [eassumption|]; simpl; tauto).
Qed.

(** C8.  For non-negative counts and every run of the random generator,
    [generate_password] returns a string of [letters + numbers + symbols]
    characters, of which exactly [letters] are alphabetic, exactly
    [numbers] are digits and exactly [symbols] are special characters. *)
Theorem generate_password_composition (letters numbers symbols : Z) (g : rng) :
  (0 <= letters)%Z -> (0 <= numbers)%Z -> (0 <= symbols)%Z ->
  exists password g',
    generate_password letters numbers symbols g = (Ok password, g')
    /\ Z.of_nat (String.length password) = (letters + numbers + symbols)%Z
    /\ Z.of_nat (count_chars is_alpha password) = letters
    /\ Z.of_nat (count_chars is_digit password) = numbers
    /\ Z.of_nat (count_chars is_special password) = symbols.
Proof.
  intros Hl Hn Hs.
  destruct (choices_spec (String.list_ascii_of_string alphabet) (Z.to_nat letters) g)
    as (a & g1 & Ha & Hla & Hina); [discriminate|].
  destruct (choices_spec (String.list_ascii_of_string digits) (Z.to_nat numbers) g1)
    as (b & g2 & Hb & Hlb & Hinb); [discriminate|].
  destruct (choices_spec (String.list_ascii_of_string special_chars) (Z.to_nat symbols) g2)
    as (c & g3 & Hc & Hlc & Hinc); [discriminate|].
  destruct (shuffle_Permutation (a ++ b ++ c) g3) as (y & g4 & Hy & Hperm).
  exists (String.string_of_list_ascii y), g4.
  split.
  { unfold generate_password, mbind, M_bind. rewrite Ha, Hb, Hc, Hy. reflexivity. }
  destruct (composition_counts a b c y) as (Hlen & Hca & Hcb & Hcc);
    [eapply Forall_members; [apply alphabet_class | exact Hina]
    |eapply Forall_members; [apply digits_class | exact Hinb]
    |eapply Forall_members; [apply special_chars_class | exact Hinc]
    |exact Hperm|].
  rewrite length_string_of_list_ascii, !count_chars_string_of_list_ascii.
  rewrite Hlen, Hca, Hcb, Hcc, Hla, Hlb, Hlc. lia.
Qed.

Lemma generate_password_composition_witness :
  ((0 <= 3)%Z /\ (0 <= 2)%Z /\ (0 <= 1)%Z)
  /\ exists password g',
       generate_password 3 2 1 (fun i => 7 * i + 5) = (Ok password, g')
       /\ Z.of_nat (String.length password) = (3 + 2 + 1)%Z
       /\ Z.of_nat (count_chars is_alpha password) = 3%Z
       /\ Z.of_nat (count_chars is_digit password) = 2%Z
       /\ Z.of_nat (count_chars is_special password) = 1%Z.
Proof.
  split; [lia|].
  apply (generate_password_composition 3 2 1 (fun i => 7 * i + 5)); lia.
Defined.

(** ** Rock, paper, scissors *)

Import rock_paper_scissor.

Lemma choice_guard_spec (c : Z) : choice_guard c = true <-> (0 < c <= 3)%Z.
Proof.
  unfold choice_guard. rewrite andb_true_iff, Z.leb_le, Z.gtb_ltb, Z.ltb_lt. lia.
Qed.

(** With choice 3 the script stops at the display of the choice. *)
Lemma main_choice_3 (ai : Z) (w : World) :
  main 3 ai w
    = (Raise (IndexError "list index out of range"),
       mkWorld (environ w) (console w ++ [prompt])).
Proof. reflexivity. Qed.

(** With choice 0 only the computer's hand is drawn. *)
Lemma main_choice_0 (w : World) :
  main 0 0 w
    = (Ok tt, mkWorld (environ w)
                (console w ++ [prompt; "computer choose:"; rock; "It's a draw!"]))
  /\ main 0 1 w
    = (Ok tt, mkWorld (environ w)
                (console w ++ [prompt; "computer choose:"; paper; "You win"]))
  /\ main 0 2 w
    = (Ok tt, mkWorld (environ w)
                (console w ++ [prompt; "computer choose:"; scissors; "You win"])).
Proof.
  unfold main, mbind, M_bind, lift_result, print. simpl.
  rewrite <- !app_assoc. repeat split; reflexivity.
Qed.

(** C9.  The display of the player's choice is guarded by [0 < c <= 3], and
    that does not keep the index inside the three-element [game_list]:
    choices 1 and 2 pass the guard and are in bounds, choice 3 passes the
    guard and the access raises [IndexError], which ends the script; choice
    0 (rock) fails the guard, so the player's hand is never drawn for it. *)
Theorem choice_guard_admits_out_of_bounds :
  (forall c : Z, choice_guard c = true <-> (0 < c <= 3)%Z)
  /\ length game_list = 3
  /\ getitem game_list 1 = Ok paper
  /\ getitem game_list 2 = Ok scissors
  /\ getitem game_list 3 = Raise (IndexError "list index out of range")
  /\ (forall (ai : Z) (w : World),
        main 3 ai w
          = (Raise (IndexError "list index out of range"),
             mkWorld (environ w) (console w ++ [prompt])))
  /\ choice_guard 0 = false
  /\ (forall w : World,
        main 0 0 w
          = (Ok tt, mkWorld (environ w)
               (console w ++ [prompt; "computer choose:"; rock; "It's a draw!"]))
        /\ main 0 1 w
          = (Ok tt, mkWorld (environ w)
               (console w ++ [prompt; "computer choose:"; paper; "You win"]))
        /\ main 0 2 w
          = (Ok tt, mkWorld (environ w)
               (console w ++ [prompt; "computer choose:"; scissors; "You win"]))).
Proof.
  split; [exact choice_guard_spec|].
  do 4 (split; [reflexivity|]).
  split; [exact main_choice_3|].
  split; [reflexivity|]. exact main_choice_0.
Qed.

(** ** Calculator.divide *)

Section true_division.

Local Open Scope Z_scope.





















End true_division.




(** * Further properties of the modelled code *)

(** ** Loops *)

(** A loop whose body returns, or raises an exception with property [P],
    does the same: the first exception raised by a body ends the loop. *)
Lemma for_each_returns_or_raises {S A} (P : exn -> Prop)
    (xs : list A) (body : A -> M S unit) :
  (forall x s, exists s',
      body x s = (Ok tt, s') \/ (exists e, P e /\ body x s = (Raise e, s'))) ->
  forall s, exists s',
    for_each xs body s = (Ok tt, s')
    \/ (exists e, P e /\ for_each xs body s = (Raise e, s')).
Proof.
  intros Hbody. induction xs as [|x xs IH]; intros s.
  - exists s. left. reflexivity.
  - simpl. unfold mbind, M_bind.
    destruct (Hbody x s) as [s1 [Hx | (e & He & Hx)]]; rewrite Hx.
    + apply IH.
    + exists s1. right. exists e. split; [exact He | reflexivity].
Qed.

Lemma bind_returns {S A B} (m : M S A) (k : A -> M S B) (s s' : S) (a : A) :
  m s = (Ok a, s') -> (m ≫= k) s = k a s'.
Proof. intros Hm. unfold mbind, M_bind. now rewrite Hm. Qed.

Lemma bind_print {A} (line : string) (k : M World A) (w : World) :
  (print line;; k) w = k (mkWorld (environ w) (console w ++ [line])).
Proof. reflexivity. Qed.

(** ** day-2/src/setup.py: the presets and the script *)

Lemma create_gemini_config_ok (temperature : Q) (max_tokens : Z) (w : World) :
  truthy (environ w !! "GEMINI_API_KEY") = true ->
  create_gemini_config temperature max_tokens w
    = (Ok (let client := mkAsyncOpenAI (environ w !! "GEMINI_API_KEY")
                           "https://generativelanguage.googleapis.com/v1beta/openai/" in
           let model := mkOpenAIChatCompletionsModel "gemini-2.0-flash" client in
           (mkRunConfig model client true (mkModelSettings temperature max_tokens),
            client, model)), w).
Proof.
  intros Hkey. unfold create_gemini_config, getenv, mbind, M_bind.
  now rewrite Hkey.
Qed.

Lemma create_gemini_config_raises (temperature : Q) (max_tokens : Z) (w : World) :
  truthy (environ w !! "GEMINI_API_KEY") = false ->
  create_gemini_config temperature max_tokens w
    = (Raise (ValueError "GEMINI_API_KEY not found in environment variables"), w).
Proof.
  intros Hkey. unfold create_gemini_config, getenv, mbind, M_bind.
  now rewrite Hkey.
Qed.

(** X1.  With a credential in the environment,
    [create_different_model_configs] returns its four presets under the
    keys creative, analytical, balanced and concise, in that order, and
    leaves the process as it was; every preset has a temperature in [0,1]
    and a positive token limit, and its client carries the credential of the
    environment. *)
Theorem create_different_model_configs_presets (w : World) :
  truthy (environ w !! "GEMINI_API_KEY") = true ->
  exists configs,
    create_different_model_configs w = (Ok configs, w)
    /\ configs.*1 = ["creative"; "analytical"; "balanced"; "concise"]
    /\ Forall (fun item =>
         let '(config, client, model) := item.2 in
         (0 <= setup.temperature (model_settings config) <= 1)%Q
         /\ (0 < setup.max_tokens (model_settings config))%Z
         /\ api_key client = environ w !! "GEMINI_API_KEY"
         /\ model_provider config = client
         /\ run_model config = model
         /\ openai_client model = client) configs.
Proof.
  intros Hkey. eexists. split.
  - unfold create_different_model_configs, mbind, M_bind.
    rewrite !(create_gemini_config_ok _ _ _ Hkey). reflexivity.
  - split; [reflexivity|].
    repeat constructor; simpl; unfold Qle; simpl; lia.
Qed.

Lemma create_different_model_configs_presets_witness :
  truthy (environ world_with_key !! "GEMINI_API_KEY") = true
  /\ exists configs,
       create_different_model_configs world_with_key = (Ok configs, world_with_key)
       /\ configs.*1 = ["creative"; "analytical"; "balanced"; "concise"]
       /\ Forall (fun item =>
            let '(config, client, model) := item.2 in
            (0 <= setup.temperature (model_settings config) <= 1)%Q
            /\ (0 < setup.max_tokens (model_settings config))%Z
            /\ api_key client = environ world_with_key !! "GEMINI_API_KEY"
            /\ model_provider config = client
            /\ run_model config = model
            /\ openai_client model = client) configs.
Proof.
  split; [reflexivity|].
  apply (create_different_model_configs_presets world_with_key). reflexivity.
Defined.

(** X2.  Run as a script, [setup.py] never ends with an exception: with a
    credential it prints its two success lines and one line per preset,
    capitalised and in insertion order; without one it prints a single
    line with the text of the error. *)
Theorem setup_main_block_reports (w : World) :
  setup.main_block w
    = (Ok tt,
       mkWorld (environ w)
         (console w ++
          if truthy (environ w !! "GEMINI_API_KEY") then
            ["✅ Basic setup successful!";
             "✅ Created 4 different configurations!";
             "  - Creative config ready";
             "  - Analytical config ready";
             "  - Balanced config ready";
             "  - Concise config ready"]
          else
            ["❌ Setup failed: GEMINI_API_KEY not found in environment variables"])).
Proof.
  destruct (truthy (environ w !! "GEMINI_API_KEY")) eqn:Hkey.
  - unfold setup.main_block, try_except, create_different_model_configs, mbind, M_bind.
    rewrite (create_gemini_config_ok _ _ _ Hkey). unfold print at 1. cbv beta iota.
    change (environ {| environ := environ w; console := ?c |}) with (environ w).
    assert (Hkey' : forall c,
      truthy (environ (mkWorld (environ w) c) !! "GEMINI_API_KEY") = true) by (intros; exact Hkey).
    rewrite !(create_gemini_config_ok _ _ _ (Hkey' _)).
    simpl. rewrite <- !app_assoc. reflexivity.
  - unfold setup.main_block, try_except, mbind, M_bind.
    rewrite (create_gemini_config_raises _ _ _ Hkey). reflexivity.
Qed.

(** ** day-2/src/dynamic_instructions.py: the handler and the demos *)

(** X3.  For a task type outside the five keys [handle_request] never
    reaches the remote call: whatever [Runner.run] would do, the call
    returns [None] and prints one line naming the unknown task type. *)
Theorem handle_request_unknown_skips_runner
    (run : Agent -> string -> RunConfig -> M World RunResult)
    (self : DynamicAgent) (task_type user_input context : string) (w : World) :
  task_type ∉ ["email"; "code"; "creative"; "tutor"; "analyst"] ->
  handle_request run self task_type user_input context w
    = (Ok None,
       mkWorld (environ w)
         (console w ++ ["you type wrong task_type Unknown task type: " +:+ task_type])).
Proof.
  intros Hnotin.
  unfold handle_request, try_except, mbind, M_bind, create_agent_for_task.
  rewrite instruction_templates_lookup.
  repeat (case_decide; [exfalso; apply Hnotin; subst; set_solver|]).
  reflexivity.
Qed.

Lemma handle_request_unknown_skips_runner_witness :
  ("poem" ∉ ["email"; "code"; "creative"; "tutor"; "analyst"])
  /\ handle_request echo_run versatile_assistant "poem" "Write a poem" "" world_with_key
     = (Ok None,
        mkWorld (environ world_with_key)
          (console world_with_key
             ++ ["you type wrong task_type Unknown task type: " +:+ "poem"])).
Proof.
  assert (Hnotin : "poem" ∉ ["email"; "code"; "creative"; "tutor"; "analyst"]).
  { intros Hin. repeat (apply elem_of_cons in Hin as [Hin | Hin]; [discriminate Hin|]).
    now apply elem_of_nil in Hin. }
  split; [exact Hnotin|].
  exact (handle_request_unknown_skips_runner echo_run versatile_assistant
           "poem" "Write a poem" "" world_with_key Hnotin).
Defined.

(** X4.  For each of the five task types [handle_request] makes exactly
    one remote call, with the agent of that task type (fixed text followed
    by the context), the user input and the configuration of the object;
    the outcome of that call decides the result: its final output when it
    returns, [None] and one printed line when it raises an instance of
    [Exception], and the exception itself when it raises any other. *)
Theorem handle_request_forwards
    (run : Agent -> string -> RunConfig -> M World RunResult)
    (self : DynamicAgent) (task_type template user_input context : string)
    (w : World) :
  (task_type, template) ∈
    [("email", email_template); ("code", code_template);
     ("creative", creative_template); ("tutor", tutor_template);
     ("analyst", analyst_template)] ->
  handle_request run self task_type user_input context w
    = match run (mkAgent (base_name self +:+ " - " +:+ title task_type)
                         (template +:+ context) "gemini-2.0-flash")
                user_input (config self) w with
      | (Ok result, w') => (Ok (Some (final_output result)), w')
      | (Raise e, w') =>
          if is_exception e then
            (Ok None,
             mkWorld (environ w')
               (console w' ++ ["you type wrong task_type " +:+ str_exn e]))
          else (Raise e, w')
      end.
Proof.
  intros Hin.
  unfold handle_request, try_except, mbind, M_bind, create_agent_for_task.
  rewrite instruction_templates_lookup.
  repeat (apply elem_of_cons in Hin as [Hin | Hin];
          [injection Hin as -> ->; simpl;
           match goal with |- context [run ?a ?u ?c ?w] =>
             destruct (run a u c w) as [[r|e] w'] end;
           [reflexivity | destruct (is_exception e); reflexivity]|]).
  now apply elem_of_nil in Hin.
Qed.

Lemma handle_request_forwards_witness :
  (("tutor", tutor_template) ∈
    [("email", email_template); ("code", code_template);
     ("creative", creative_template); ("tutor", tutor_template);
     ("analyst", analyst_template)])
  /\ handle_request echo_run versatile_assistant "tutor" "What is a loop?"
       "Explain to a beginner." world_with_key
     = (Ok (Some (tutor_template +:+ "Explain to a beginner.")), world_with_key).
Proof.
  assert (Hin : ("tutor", tutor_template) ∈
    [("email", email_template); ("code", code_template);
     ("creative", creative_template); ("tutor", tutor_template);
     ("analyst", analyst_template)]).
  { apply list_elem_of_lookup_2 with 3. reflexivity. }
  split; [exact Hin|].
  exact (handle_request_forwards echo_run versatile_assistant "tutor" tutor_template
           "What is a loop?" "Explain to a beginner." world_with_key Hin).
Defined.

Lemma init_ok (base_name : string) (w : World) :
  truthy (environ w !! "GEMINI_API_KEY") = true ->
  exists self, __init__ base_name w = (Ok self, w).
Proof.
  intros Hkey. unfold __init__, mbind, M_bind.
  rewrite (create_gemini_config_ok _ _ _ Hkey). eexists. reflexivity.
Qed.

Lemma init_raises (base_name : string) (w : World) :
  truthy (environ w !! "GEMINI_API_KEY") = false ->
  __init__ base_name w
    = (Raise (ValueError "GEMINI_API_KEY not found in environment variables"), w).
Proof.
  intros Hkey. unfold __init__, mbind, M_bind.
  now rewrite (create_gemini_config_raises _ _ _ Hkey).
Qed.

(** One turn of a demo: a print, a request, a print. *)
Lemma request_turn_returns
    (run : Agent -> string -> RunConfig -> M World RunResult)
    (self : DynamicAgent) (task_type user_input context : string)
    (k : option string -> M World unit) (w : World) :
  (forall response w1, exists w2,
      k response w1 = (Ok tt, w2)
      \/ (exists e, is_exception e = false /\ k response w1 = (Raise e, w2))) ->
  exists w',
    (response ← handle_request run self task_type user_input context; k response) w
      = (Ok tt, w')
    \/ (exists e, is_exception e = false
          /\ (response ← handle_request run self task_type user_input context;
              k response) w
            = (Raise e, w')).
Proof.
  intros Hk. unfold mbind, M_bind.
  destruct (handle_request_returns run self task_type user_input context w)
    as (w1 & [(v & Hreq) | (e & He & Hreq)]); rewrite Hreq.
  - apply Hk.
  - exists w1. right. exists e. split; [exact He | reflexivity].
Qed.

(** X5.  With a credential in the environment no instance of [Exception]
    ends a demo: each of the two demos runs to its end, or stops with an
    exception outside [Exception] (a cancellation, a keyboard interrupt, a
    system exit), which [handle_request] does not catch.  Without a
    credential, each prints its banner and the missing-credential error
    escapes from the construction of the [DynamicAgent]. *)
Theorem demos_survive_remote_failures
    (run : Agent -> string -> RunConfig -> M World RunResult) (w : World) :
  if truthy (environ w !! "GEMINI_API_KEY") then
    (exists w',
        demo_dynamic_agents run w = (Ok tt, w')
        \/ (exists e, is_exception e = false
              /\ demo_dynamic_agents run w = (Raise e, w')))
    /\ (exists w',
          demo_context_evolution run w = (Ok tt, w')
          \/ (exists e, is_exception e = false
                /\ demo_context_evolution run w = (Raise e, w')))
  else
    demo_dynamic_agents run w
      = (Raise (ValueError "GEMINI_API_KEY not found in environment variables"),
         mkWorld (environ w) (console w ++ ["🔄 Dynamic Agent Demo" +:+ nl]))
    /\ demo_context_evolution run w
      = (Raise (ValueError "GEMINI_API_KEY not found in environment variables"),
         mkWorld (environ w) (console w ++ ["🌱 Context Evolution Demo" +:+ nl])).
Proof.
  destruct (truthy (environ w !! "GEMINI_API_KEY")) eqn:Hkey.
  - split.
    + unfold demo_dynamic_agents. rewrite bind_print.
      destruct (init_ok "Versatile Assistant"
                  (mkWorld (environ w) (console w ++ ["🔄 Dynamic Agent Demo" +:+ nl])) Hkey)
        as [self Hinit].
      rewrite (bind_returns _ _ _ _ _ Hinit).
      apply (for_each_returns_or_raises (fun e => is_exception e = false)).
      intros [i test_case] s. cbv zeta.
      rewrite !bind_print. apply request_turn_returns.
      intros response w1. rewrite !bind_print. eexists. left. reflexivity.
    + unfold demo_context_evolution. rewrite bind_print.
      destruct (init_ok "Learning Assistant"
                  (mkWorld (environ w) (console w ++ ["🌱 Context Evolution Demo" +:+ nl])) Hkey)
        as [self Hinit].
      rewrite (bind_returns _ _ _ _ _ Hinit).
      rewrite bind_print. apply request_turn_returns. intros r1 w1.
      rewrite !bind_print. apply request_turn_returns. intros r2 w2.
      rewrite !bind_print. apply request_turn_returns. intros r3 w3.
      eexists. left. reflexivity.
  - split.
    + unfold demo_dynamic_agents. rewrite bind_print.
      unfold mbind, M_bind. now rewrite init_raises.
    + unfold demo_context_evolution. rewrite bind_print.
      unfold mbind, M_bind. now rewrite init_raises.
Qed.

(** ** openai-agents-sdk/day-1/calculator.py *)

Lemma slice_down_app {A} (text more : list A) :
  calculator.slice_down (text ++ more) (length text) = reverse text.
Proof.
  revert more. induction text as [|c text IH] using rev_ind; intros more.
  - reflexivity.
  - rewrite length_app, Nat.add_1_r. simpl.
    rewrite <- app_assoc. simpl.
    rewrite lookup_app_r by lia. rewrite Nat.sub_diag. simpl.
    rewrite IH, reverse_app. reflexivity.
Qed.

Lemma reverse_string_reverse {A} (self : calculator.Calculator) (text : list A) :
  calculator.reverse_string self text = reverse text.
Proof.
  unfold calculator.reverse_string.
  rewrite <- (app_nil_r text) at 1. apply slice_down_app.
Qed.

(** X6.  [reverse_string] keeps the length of the text, puts the character
    of index [i] at index [len - 1 - i], undoes itself when applied twice,
    and turns a concatenation into the concatenation of the reversed parts
    in the opposite order. *)
Theorem reverse_string_spec {A} (self : calculator.Calculator) (text more : list A) :
  length (calculator.reverse_string self text) = length text
  /\ (forall i, i < length text ->
        calculator.reverse_string self text !! i = text !! (length text - 1 - i))
  /\ calculator.reverse_string self (calculator.reverse_string self text) = text
  /\ calculator.reverse_string self (text ++ more)
     = calculator.reverse_string self more ++ calculator.reverse_string self text.
Proof.
  rewrite !reverse_string_reverse. repeat split.
  - apply length_reverse.
  - intros i Hi. rewrite reverse_lookup by exact Hi. f_equal. lia.
  - apply reverse_involutive.
  - apply reverse_app.
Qed.

(** On integers of any size [subtract] undoes [addition] and
    [addition] undoes [subtract], without any wrap-around, and [multiply]
    distributes over both. *)
Lemma calculator_arithmetic (self : calculator.Calculator) (a b c : Z) :
  calculator.subtract self (calculator.addition self a b) b = a
  /\ calculator.addition self (calculator.subtract self a b) b = a
  /\ calculator.multiply self a (calculator.addition self b c)
     = calculator.addition self (calculator.multiply self a b)
         (calculator.multiply self a c)
  /\ calculator.multiply self a (calculator.subtract self b c)
     = calculator.subtract self (calculator.multiply self a b)
         (calculator.multiply self a c).
Proof. unfold calculator.subtract, calculator.addition, calculator.multiply. lia. Qed.

(** ** password_generator.py: the shuffle, and counts of any sign *)



(** X8.  For counts of either sign that fit a machine word
    ([-2^63 <= k < 2^63]) [generate_password] does not raise: a negative
    count contributes no character, so the password has
    [max 0 letters + max 0 numbers + max 0 symbols] characters, with that
    many letters, digits and special characters. *)
Theorem generate_password_any_counts (letters numbers symbols : Z) (g : rng) :
  (- 2 ^ 63 <= letters < 2 ^ 63)%Z ->
  (- 2 ^ 63 <= numbers < 2 ^ 63)%Z ->
  (- 2 ^ 63 <= symbols < 2 ^ 63)%Z ->
  exists password g',
    generate_password letters numbers symbols g = (Ok password, g')
    /\ Z.of_nat (String.length password)
       = (Z.max 0 letters + Z.max 0 numbers + Z.max 0 symbols)%Z
    /\ Z.of_nat (count_chars is_alpha password) = Z.max 0 letters
    /\ Z.of_nat (count_chars is_digit password) = Z.max 0 numbers
    /\ Z.of_nat (count_chars is_special password) = Z.max 0 symbols.
Proof.
  intros _ _ _.
  destruct (choices_spec (String.list_ascii_of_string alphabet) (Z.to_nat letters) g)
    as (a & g1 & Ha & Hla & Hina); [discriminate|].
  destruct (choices_spec (String.list_ascii_of_string digits) (Z.to_nat numbers) g1)
    as (b & g2 & Hb & Hlb & Hinb); [discriminate|].
  destruct (choices_spec (String.list_ascii_of_string special_chars) (Z.to_nat symbols) g2)
    as (c & g3 & Hc & Hlc & Hinc); [discriminate|].
  destruct (shuffle_Permutation (a ++ b ++ c) g3) as (y & g4 & Hy & Hperm).
  exists (String.string_of_list_ascii y), g4.
  split.
  { unfold generate_password, mbind, M_bind. rewrite Ha, Hb, Hc, Hy. reflexivity. }
  destruct (composition_counts a b c y) as (Hlen & Hca & Hcb & Hcc);
    [eapply Forall_members; [apply alphabet_class | exact Hina]
    |eapply Forall_members; [apply digits_class | exact Hinb]
    |eapply Forall_members; [apply special_chars_class | exact Hinc]
    |exact Hperm|].
  rewrite length_string_of_list_ascii, !count_chars_string_of_list_ascii.
  rewrite Hlen, Hca, Hcb, Hcc, Hla, Hlb, Hlc. lia.
Qed.

Lemma generate_password_any_counts_witness :
  exists password g',
    generate_password (-3) 2 (-1) (fun n => 7 * n + 5) = (Ok password, g')
    /\ Z.of_nat (String.length password)
       = (Z.max 0 (-3) + Z.max 0 2 + Z.max 0 (-1))%Z
    /\ Z.of_nat (count_chars is_alpha password) = Z.max 0 (-3)
    /\ Z.of_nat (count_chars is_digit password) = Z.max 0 2
    /\ Z.of_nat (count_chars is_special password) = Z.max 0 (-1).
Proof.
  apply (generate_password_any_counts (-3) 2 (-1) (fun n => 7 * n + 5)); lia.
Defined.

(** ** rock_paper_scissor/main.py: the verdict *)

(** X9.  For a number below 0 or above 3 and any hand of the computer, the
    script ends normally: it never draws the player's hand, draws the
    computer's and reports an invalid number. *)
Theorem main_invalid_number (your_choice ai : Z) (w : World) :
  (your_choice < 0 \/ 3 < your_choice)%Z ->
  (0 <= ai <= 2)%Z ->
  exists hand,
    getitem game_list ai = Ok hand
    /\ main your_choice ai w
       = (Ok tt,
          mkWorld (environ w)
            (console w ++ [prompt; "computer choose:"; hand;
                           "you typed an invalid number"])).
Proof.
  intros Hc Hai.
  assert (Hguard : choice_guard your_choice = false).
  { destruct (choice_guard your_choice) eqn:Hg; [|reflexivity].
    apply choice_guard_spec in Hg. lia. }
  assert (Hinvalid : ((your_choice >=? 3) || (your_choice <? 0))%Z = true).
  { apply orb_true_iff. rewrite Z.geb_leb, Z.leb_le, Z.ltb_lt. lia. }
  assert (Hcases : ai = 0%Z \/ ai = 1%Z \/ ai = 2%Z) by lia.
  destruct Hcases as [-> | [-> | ->]]; eexists; (split; [reflexivity|]);
    unfold main, mbind, M_bind, lift_result, print; rewrite Hguard; simpl;
    rewrite Hinvalid; simpl; rewrite <- ?app_assoc; reflexivity.
Qed.

Lemma main_invalid_number_witness :
  ((7 < 0 \/ 3 < 7)%Z /\ (0 <= 1 <= 2)%Z)
  /\ exists hand,
       getitem game_list 1 = Ok hand
       /\ main 7 1 world_with_key
          = (Ok tt,
             mkWorld (environ world_with_key)
               (console world_with_key ++ [prompt; "computer choose:"; hand;
                                           "you typed an invalid number"])).
Proof.
  split; [lia|].
  apply (main_invalid_number 7 1 world_with_key); lia.
Defined.

(** X10.  For a hand of the player and a hand of the computer in 0..2 the
    script ends normally, draws the player's hand unless it is 0, then the
    computer's, and its verdict is read off the order of the two numbers
    alone: a draw when they are equal, "You win" when the computer's is
    larger, "You lose" when it is smaller.  The two last branches of the
    script are never taken. *)
Theorem main_verdict (your_choice ai : Z) (w : World) :
  (0 <= your_choice <= 2)%Z ->
  (0 <= ai <= 2)%Z ->
  exists yours computers,
    getitem game_list your_choice = Ok yours
    /\ getitem game_list ai = Ok computers
    /\ main your_choice ai w
       = (Ok tt,
          mkWorld (environ w)
            (console w ++ [prompt]
               ++ (if (your_choice =? 0)%Z then [] else [yours])
               ++ ["computer choose:"; computers;
                   if (ai =? your_choice)%Z then "It's a draw!"
                   else if (your_choice <? ai)%Z then "You win"
                   else "You lose"])).
Proof.
  intros Hc Hai.
  assert (Hc' : your_choice = 0%Z \/ your_choice = 1%Z \/ your_choice = 2%Z) by lia.
  assert (Hai' : ai = 0%Z \/ ai = 1%Z \/ ai = 2%Z) by lia.
  destruct Hc' as [-> | [-> | ->]]; destruct Hai' as [-> | [-> | ->]];
    eexists _, _; (split; [reflexivity|]); (split; [reflexivity|]);
    unfold main, mbind, M_bind, lift_result, print; simpl;
    rewrite <- !app_assoc; reflexivity.
Qed.

Lemma main_verdict_witness :
  ((0 <= 1 <= 2)%Z /\ (0 <= 0 <= 2)%Z)
  /\ exists yours computers,
       getitem game_list 1 = Ok yours
       /\ getitem game_list 0 = Ok computers
       /\ main 1 0 world_with_key
          = (Ok tt,
             mkWorld (environ world_with_key)
               (console world_with_key ++ [prompt]
                  ++ (if (1 =? 0)%Z then [] else [yours])
                  ++ ["computer choose:"; computers;
                      if (0 =? 1)%Z then "It's a draw!"
                      else if (1 <? 0)%Z then "You win"
                      else "You lose"])).
Proof.
  split; [lia|].
  apply (main_verdict 1 0 world_with_key); lia.
Defined.

(** ** Number Guess Game/number_guess_user.py *)

Import number_guess_user.

Lemma randint_range (low high : Z) (g : rng) :
  (low <= high)%Z ->
  exists n, (randint low high g).1 = Ok n /\ (low <= n <= high)%Z.
Proof.
  intros Hle. unfold randint.
  destruct (high <? low)%Z eqn:Hlt; [apply Z.ltb_lt in Hlt; lia|].
  unfold mbind, M_bind, random_below, mret, M_ret. simpl.
  eexists; split; [reflexivity|].
  assert (g 0 `mod` Z.to_nat (high - low + 1) < Z.to_nat (high - low + 1))
    by (apply Nat.mod_upper_bound; lia).
  lia.
Qed.

Lemma guessing_wrong (secret_number attempts : Z) (wrong typed : list Z) (w : World) :
  secret_number ∉ wrong ->
  guessing secret_number attempts (wrong ++ typed) w
    = guessing secret_number (attempts + Z.of_nat (length wrong)) typed
        (mkWorld (environ w)
           (console w ++ concat (hint_lines secret_number <$> wrong))).
Proof.
  revert attempts w. induction wrong as [|guess wrong IH]; intros attempts w Hnotin.
  - simpl. rewrite Z.add_0_r, app_nil_r. now destruct w.
  - apply not_elem_of_cons in Hnotin as [Hne Hnotin].
    change (guessing secret_number attempts ((guess :: wrong) ++ typed) w)
      with ((print "Enter your guess: ";;
             if (guess =? secret_number)%Z then
               print ("Congratulations! You guessed the number " +:+ pretty secret_number
                        +:+ " in " +:+ pretty (attempts + 1)%Z +:+ " attempts.")
             else if (guess >? secret_number)%Z then
               print "Too high! Try again.";;
               guessing secret_number (attempts + 1) (wrong ++ typed)
             else
               print "Too low! Try again.";;
               guessing secret_number (attempts + 1) (wrong ++ typed)) w).
    rewrite bind_print.
    destruct (guess =? secret_number)%Z eqn:Heq; [apply Z.eqb_eq in Heq; congruence|].
    assert (Hstep : forall line,
      (print line;; guessing secret_number (attempts + 1) (wrong ++ typed))
        (mkWorld (environ w) (console w ++ ["Enter your guess: "]))
      = guessing secret_number (attempts + Z.of_nat (length (guess :: wrong))) typed
          (mkWorld (environ w)
             (console w ++ ["Enter your guess: "; line]
                ++ concat (hint_lines secret_number <$> wrong)))).
    { intros line. rewrite bind_print, IH by exact Hnotin. simpl.
      rewrite <- !app_assoc. simpl.
      replace (attempts + 1 + Z.of_nat (length wrong))%Z
        with (attempts + Z.of_nat (S (length wrong)))%Z by lia.
      reflexivity. }
    unfold hint_lines at 1. simpl fmap. simpl concat.
    destruct (guess >? secret_number)%Z; apply Hstep.
Qed.

Lemma user_guess_run (typed : list Z) (g : rng) (secret_number : Z) (w : World) :
  (randint 1 100 g).1 = Ok secret_number ->
  user_guess typed g w
    = guessing secret_number 0 typed
        (mkWorld (environ w)
           (console w
              ++ ["I have chosen a number between 1 and 100. Try to guess it!"])).
Proof.
  intros Hsecret. unfold user_guess. cbv zeta.
  unfold mbind at 1, M_bind at 1, lift_result. rewrite Hsecret. apply bind_print.
Qed.

Lemma user_guess_found (wrong rest : list Z) (g : rng) (secret_number : Z) (w : World) :
  (randint 1 100 g).1 = Ok secret_number ->
  secret_number ∉ wrong ->
  user_guess (wrong ++ secret_number :: rest) g w
    = (Ok tt,
       mkWorld (environ w)
         (console w
            ++ ["I have chosen a number between 1 and 100. Try to guess it!"]
            ++ concat (hint_lines secret_number <$> wrong)
            ++ ["Enter your guess: ";
                "Congratulations! You guessed the number " +:+ pretty secret_number
                  +:+ " in " +:+ pretty (Z.of_nat (length wrong) + 1)%Z
                  +:+ " attempts."])).
Proof.
  intros Hsecret Hnotin.
  rewrite (user_guess_run _ _ _ _ Hsecret), guessing_wrong by exact Hnotin.
  simpl. unfold mbind, M_bind, print. simpl.
  rewrite Z.eqb_refl. simpl. rewrite <- !app_assoc. reflexivity.
Qed.

(** X11.  When the player types the secret number after any number of
    wrong guesses, [user_guess] ends normally: each wrong guess got the
    prompt and a truthful hint (too high exactly when it is above the
    secret), the last line congratulates with the secret and with the
    number of guesses typed so far, and what is typed afterwards is never
    read. *)
Theorem user_guess_counts_attempts
    (wrong rest : list Z) (g : rng) (secret_number : Z) (w : World) :
  (randint 1 100 g).1 = Ok secret_number ->
  secret_number ∉ wrong ->
  user_guess (wrong ++ secret_number :: rest) g w
    = (Ok tt,
       mkWorld (environ w)
         (console w
            ++ ["I have chosen a number between 1 and 100. Try to guess it!"]
            ++ concat (hint_lines secret_number <$> wrong)
            ++ ["Enter your guess: ";
                "Congratulations! You guessed the number " +:+ pretty secret_number
                  +:+ " in " +:+ pretty (Z.of_nat (length wrong) + 1)%Z
                  +:+ " attempts."])).
Proof. apply user_guess_found. Qed.

Lemma user_guess_counts_attempts_witness :
  ((randint 1 100 (fun _ => 41)).1 = Ok 42%Z /\ (42%Z ∉ [50%Z; 10%Z]))
  /\ user_guess ([50%Z; 10%Z] ++ 42%Z :: [7%Z]) (fun _ => 41) world_with_key
     = (Ok tt,
        mkWorld (environ world_with_key)
          (console world_with_key
             ++ ["I have chosen a number between 1 and 100. Try to guess it!"]
             ++ concat (hint_lines 42 <$> [50%Z; 10%Z])
             ++ ["Enter your guess: ";
                 "Congratulations! You guessed the number " +:+ pretty 42%Z
                   +:+ " in " +:+ pretty (Z.of_nat (length [50%Z; 10%Z]) + 1)%Z
                   +:+ " attempts."])).
Proof.
  assert (Hnotin : 42%Z ∉ [50%Z; 10%Z]).
  { intros Hin. repeat (apply elem_of_cons in Hin as [Hin | Hin]; [discriminate Hin|]).
    now apply elem_of_nil in Hin. }
  split; [split; [reflexivity | exact Hnotin]|].
  exact (user_guess_counts_attempts [50%Z; 10%Z] [7%Z] (fun _ => 41) 42 world_with_key
           eq_refl Hnotin).
Defined.

(** X12.  When the secret number is not among the numbers typed, the game
    answers every guess with a hint and then fails at the prompt with the
    [EOFError] of [input]: it has no other way to end. *)
Theorem user_guess_runs_out_of_input
    (typed : list Z) (g : rng) (secret_number : Z) (w : World) :
  (randint 1 100 g).1 = Ok secret_number ->
  secret_number ∉ typed ->
  user_guess typed g w
    = (Raise (Exception "EOFError" "EOF when reading a line"),
       mkWorld (environ w)
         (console w
            ++ ["I have chosen a number between 1 and 100. Try to guess it!"]
            ++ concat (hint_lines secret_number <$> typed)
            ++ ["Enter your guess: "])).
Proof.
  intros Hsecret Hnotin.
  rewrite (user_guess_run _ _ _ _ Hsecret).
  rewrite <- (app_nil_r typed) at 1. rewrite guessing_wrong by exact Hnotin.
  simpl. unfold mbind, M_bind, print, mthrow, M_throw. simpl.
  rewrite <- !app_assoc. reflexivity.
Qed.

Lemma user_guess_runs_out_of_input_witness :
  ((randint 1 100 (fun _ => 41)).1 = Ok 42%Z /\ (42%Z ∉ [50%Z; 10%Z]))
  /\ user_guess [50%Z; 10%Z] (fun _ => 41) world_with_key
     = (Raise (Exception "EOFError" "EOF when reading a line"),
        mkWorld (environ world_with_key)
          (console world_with_key
             ++ ["I have chosen a number between 1 and 100. Try to guess it!"]
             ++ concat (hint_lines 42 <$> [50%Z; 10%Z])
             ++ ["Enter your guess: "])).
Proof.
  assert (Hnotin : 42%Z ∉ [50%Z; 10%Z]).
  { intros Hin. repeat (apply elem_of_cons in Hin as [Hin | Hin]; [discriminate Hin|]).
    now apply elem_of_nil in Hin. }
  split; [split; [reflexivity | exact Hnotin]|].
  exact (user_guess_runs_out_of_input [50%Z; 10%Z] (fun _ => 41) 42 world_with_key
           eq_refl Hnotin).
Defined.

(** X13.  The secret number always lies between 1 and 100, so a player
    who types 1, 2, ..., 100 in turn wins for every run of the generator:
    every hint is "Too low", and the number of attempts reported is the
    secret number itself. *)
Theorem user_guess_counting_up_wins (g : rng) (w : World) :
  exists secret_number,
    (1 <= secret_number <= 100)%Z
    /\ user_guess (seqZ 1 100) g w
       = (Ok tt,
          mkWorld (environ w)
            (console w
               ++ ["I have chosen a number between 1 and 100. Try to guess it!"]
               ++ concat ((fun _ => ["Enter your guess: "; "Too low! Try again."])
                            <$> seqZ 1 (secret_number - 1))
               ++ ["Enter your guess: ";
                   "Congratulations! You guessed the number " +:+ pretty secret_number
                     +:+ " in " +:+ pretty secret_number +:+ " attempts."])).
Proof.
  destruct (randint_range 1 100 g) as (secret_number & Hsecret & Hrange); [lia|].
  exists secret_number. split; [exact Hrange|].
  assert (Hsplit : seqZ 1 100
            = seqZ 1 (secret_number - 1)
                ++ secret_number :: seqZ (secret_number + 1) (100 - secret_number)).
  { replace 100%Z with ((secret_number - 1) + (1 + (100 - secret_number)))%Z at 1 by lia.
    rewrite seqZ_app by lia. f_equal.
    rewrite seqZ_cons by lia. f_equal; [lia|]. f_equal; lia. }
  assert (Hnotin : secret_number ∉ seqZ 1 (secret_number - 1)).
  { rewrite elem_of_seqZ. lia. }
  rewrite Hsplit, (user_guess_found _ _ _ _ _ Hsecret Hnotin).
  rewrite length_seqZ.
  replace (Z.of_nat (Z.to_nat (secret_number - 1)) + 1)%Z with secret_number by lia.
  do 4 f_equal. f_equal. f_equal.
  apply list_fmap_ext. intros i guess Hguess.
  apply list_elem_of_lookup_2, elem_of_seqZ in Hguess.
  unfold hint_lines.
  destruct (guess >? secret_number)%Z eqn:Hgt; [|reflexivity].
  rewrite Z.gtb_ltb in Hgt. apply Z.ltb_lt in Hgt. lia.
Qed.

(** ** openai-agents-sdk/day-1/setup.py *)

(** X14.  The statements at the end of [openai-agents-sdk/day-1/setup.py]:
    on import the module prints "Setup Failed" without reading the
    environment or failing, even with a credential set; run as a script it
    announces the check and then either reports success or, without a
    credential, lets the [ValueError] escape (nothing catches it). *)
Theorem sdk_setup_module_body (__name__ : string) (w : World) :
  sdk_setup.module_body __name__ w
    = if decide (__name__ = "__main__") then
        if truthy (environ w !! "GEMINI_API_KEY") then
          (Ok tt,
           mkWorld (environ w)
             (console w ++ ["setup check is Running"; "The Setup is Successful"]))
        else
          (Raise (ValueError "GEMINI_API_KEY not found in environment variables"),
           mkWorld (environ w) (console w ++ ["setup check is Running"]))
      else
        (Ok tt, mkWorld (environ w) (console w ++ ["Setup Failed"])).
Proof.
  unfold sdk_setup.module_body. case_decide; [|reflexivity].
  rewrite bind_print.
  unfold sdk_setup.create_gemini_setup, getenv, mbind, M_bind. simpl.
  destruct (truthy (environ w !! "GEMINI_API_KEY")); unfold print; simpl;
    rewrite <- ?app_assoc; reflexivity.
Qed.

(** ** Number Guess Game/number_guess_computer.py *)

Lemma randint_ok (low high : Z) (g : rng) :
  (low <= high)%Z ->
  exists guess,
    randint low high g = (Ok guess, fun i => g (S i)) /\ (low <= guess <= high)%Z.
Proof.
  intros Hle. unfold randint.
  destruct (high <? low)%Z eqn:Hlt; [apply Z.ltb_lt in Hlt; lia|].
  unfold mbind, M_bind, random_below, mret, M_ret.
  eexists; split; [reflexivity|].
  assert (g 0 `mod` Z.to_nat (high - low + 1) < Z.to_nat (high - low + 1))
    by (apply Nat.mod_upper_bound; lia).
  lia.
Qed.


Lemma honest_answers_S (secret_number low high : Z) (n : nat) (g : rng) :
  honest_answers secret_number low high (S n) g
    = match randint low high g with
      | (Raise _, _) => []
      | (Ok guess, g') =>
          if (guess =? secret_number)%Z then []
          else if (guess >? secret_number)%Z then
            "high" :: honest_answers secret_number low (guess - 1) n g'
          else
            "low" :: honest_answers secret_number (guess + 1) high n g'
      end.
Proof. reflexivity. Qed.


Lemma computer_guessing_hit
    (secret_number low high attempts : Z) (typed : list string) (g g' : rng) (w : World) :
  randint low high g = (Ok secret_number, g') ->
  number_guess_computer.guessing secret_number low high attempts typed g w
    = (Ok tt,
       mkWorld (environ w)
         (console w ++ ["I guess " +:+ pretty secret_number;
                        "Yay! I guessed it right: " +:+ pretty secret_number +:+ " in "
                          +:+ pretty (attempts + 1)%Z +:+ " attempts."])).
Proof.
  intros Hguess.
  destruct typed; simpl; rewrite Hguess; rewrite bind_print, Z.eqb_refl;
    unfold print; simpl; rewrite <- app_assoc; reflexivity.
Qed.

Lemma computer_guessing_miss
    (secret_number low high attempts guess : Z) (line : string)
    (typed : list string) (g g' : rng) (w : World) :
  randint low high g = (Ok guess, g') ->
  guess <> secret_number ->
  number_guess_computer.guessing secret_number low high attempts (line :: typed) g w
    = if decide (lower line = "high") then
        number_guess_computer.guessing secret_number low (guess - 1) (attempts + 1) typed g'
          (mkWorld (environ w)
             (console w ++ ["I guess " +:+ pretty guess; "Is the number high or low?";
                            "High! I'll guess lower."]))
      else if decide (lower line = "low") then
        number_guess_computer.guessing secret_number (guess + 1) high (attempts + 1) typed g'
          (mkWorld (environ w)
             (console w ++ ["I guess " +:+ pretty guess; "Is the number high or low?";
                            "low! I'll guess higher."]))
      else
        number_guess_computer.guessing secret_number low high (attempts + 1) typed g'
          (mkWorld (environ w)
             (console w ++ ["I guess " +:+ pretty guess; "Is the number high or low?"])).
Proof.
  intros Hguess Hne. simpl. rewrite Hguess. rewrite bind_print.
  destruct (guess =? secret_number)%Z eqn:Heq; [apply Z.eqb_eq in Heq; congruence|].
  rewrite bind_print. cbv zeta.
  repeat case_decide; rewrite ?bind_print; simpl; rewrite <- ?app_assoc; reflexivity.
Qed.

(** Against truthful answers the interval [low..high] keeps the secret
    number and loses at least the guess at every miss. *)
Lemma computer_guessing_honest (n : nat) :
  forall (secret_number low high attempts : Z) (g : rng) (w : World),
  (low <= secret_number <= high)%Z ->
  (high - low < Z.of_nat n)%Z ->
  exists k w',
    (1 <= k <= high - low + 1)%Z
    /\ number_guess_computer.guessing secret_number low high attempts
         (honest_answers secret_number low high n g) g w = (Ok tt, w')
    /\ last (console w')
       = Some ("Yay! I guessed it right: " +:+ pretty secret_number +:+ " in "
                 +:+ pretty (attempts + k)%Z +:+ " attempts.").
Proof.
  induction n as [|n IH]; intros secret_number low high attempts g w Hin Hfuel; [lia|].
  destruct (randint_ok low high g) as (guess & Hguess & Hrange); [lia|].
  rewrite honest_answers_S, Hguess.
  destruct (guess =? secret_number)%Z eqn:Heq.
  - apply Z.eqb_eq in Heq. subst guess.
    exists 1%Z. eexists. split; [lia|].
    rewrite (computer_guessing_hit _ _ _ _ _ _ _ _ Hguess).
    split; [reflexivity|]. simpl.
    rewrite last_app. reflexivity.
  - apply Z.eqb_neq in Heq.
    destruct (guess >? secret_number)%Z eqn:Hgt.
    + rewrite Z.gtb_ltb in Hgt. apply Z.ltb_lt in Hgt.
      rewrite (computer_guessing_miss _ _ _ _ _ _ _ _ _ _ Hguess Heq).
      change (lower "high") with "high". rewrite decide_True by reflexivity.
      match goal with
      | |- context [number_guess_computer.guessing _ _ _ _ _ ?g1 ?w1] =>
          destruct (IH secret_number low (guess - 1)%Z (attempts + 1)%Z g1 w1)
            as (k & w' & Hk & Hrun & Hlast); [lia | lia |]
      end.
      exists (k + 1)%Z, w'. split; [lia|].
      split; [exact Hrun|].
      replace (attempts + (k + 1))%Z with (attempts + 1 + k)%Z by lia.
      exact Hlast.
    + rewrite Z.gtb_ltb in Hgt. apply Z.ltb_ge in Hgt.
      rewrite (computer_guessing_miss _ _ _ _ _ _ _ _ _ _ Hguess Heq).
      change (lower "low") with "low".
      rewrite decide_False by discriminate. rewrite decide_True by reflexivity.
      match goal with
      | |- context [number_guess_computer.guessing _ _ _ _ _ ?g1 ?w1] =>
          destruct (IH secret_number (guess + 1)%Z high (attempts + 1)%Z g1 w1)
            as (k & w' & Hk & Hrun & Hlast); [lia | lia |]
      end.
      exists (k + 1)%Z, w'. split; [lia|].
      split; [exact Hrun|].
      replace (attempts + (k + 1))%Z with (attempts + 1 + k)%Z by lia.
      exact Hlast.
Qed.


(** X15.  For a secret number between 1 and 100 and a player who answers
    every guess truthfully, [computer_guess] ends normally for every run
    of the generator, with the secret number as its last guess and after
    at most 100 attempts: each truthful answer removes at least the guess
    from the interval and never the secret number. *)
Theorem computer_guess_honest_player (secret_number : Z) (g : rng) (w : World) :
  (1 <= secret_number <= 100)%Z ->
  exists attempts w',
    (1 <= attempts <= 100)%Z
    /\ number_guess_computer.computer_guess secret_number
         (honest_answers secret_number 1 100 100 g) g w = (Ok tt, w')
    /\ last (console w')
       = Some ("Yay! I guessed it right: " +:+ pretty secret_number +:+ " in "
                 +:+ pretty attempts +:+ " attempts.").
Proof.
  intros Hrange. unfold number_guess_computer.computer_guess. cbv zeta.
  rewrite !bind_print.
  match goal with
  | |- context [number_guess_computer.guessing _ _ _ _ _ _ ?w1] =>
      destruct (computer_guessing_honest 100 secret_number 1 100 0 g w1)
        as (k & w' & Hk & Hrun & Hlast); [lia | lia |]
  end.
  exists k, w'. split; [lia|]. split; [exact Hrun|]. exact Hlast.
Qed.

Lemma computer_guess_honest_player_witness :
  (1 <= 42 <= 100)%Z
  /\ exists attempts w',
       (1 <= attempts <= 100)%Z
       /\ number_guess_computer.computer_guess 42
            (honest_answers 42 1 100 100 (fun i => 7 * i + 5)) (fun i => 7 * i + 5)
            world_with_key = (Ok tt, w')
       /\ last (console w')
          = Some ("Yay! I guessed it right: " +:+ pretty 42%Z +:+ " in "
                    +:+ pretty attempts +:+ " attempts.").
Proof.
  split; [lia|].
  apply (computer_guess_honest_player 42 (fun i => 7 * i + 5) world_with_key). lia.
Defined.


